(** * The API client of the chat front end (lib/api.ts)

    A shallow embedding of the session store ([getToken], [setToken],
    [clearToken], [isLoggedIn]), the request dispatcher ([apiFetch],
    [sendMessage]) and the streaming consumer ([sendMessageStream]),
    together with the parts of the JavaScript platform they use:
    [localStorage], [fetch], [JSON.parse], [JSON.stringify], string
    [split]/[startsWith]/[slice], truthiness and the conversion of a
    value to a string.

    An [async] function is a computation over a world (the storage, the
    log of navigations, of requests made and of callbacks called) that
    returns or throws; a rejected promise is a thrown exception.  One
    call runs from start to end: other tasks that could run at an
    [await] are not modelled.  The network is a function from the
    request to what [fetch] settles with, and a response body is the
    finite sequence of its reads. *)

From Stdlib Require Import ZArith NArith Ascii String List Bool Lia.
From stdpp Require Import gmap strings.

Local Open Scope Z_scope.

#[local] Arguments String.append !_ _ / : simpl nomatch.

(** ** JavaScript strings

    A JavaScript string is modelled by the bytes of its UTF-8 text.  The
    code only cuts strings at ASCII characters (newline and the six
    characters of the event marker), where cutting the bytes and cutting
    the UTF-16 code units agree. *)

Module JsString.

Definition is_char (c d : ascii) : bool := Ascii.eqb c d.

(** [s.startsWith(p)] *)
Fixpoint startsWith (p s : string) : bool :=
  match p, s with
  | EmptyString, _ => true
  | String a p', String b s' => is_char a b && startsWith p' s'
  | String _ _, EmptyString => false
  end.

(** [s.slice(n)] for a non-negative [n] *)
Fixpoint slice (n : nat) (s : string) : string :=
  match n, s with
  | O, _ => s
  | S n', String _ s' => slice n' s'
  | S _, EmptyString => EmptyString
  end.

Definition newline : ascii := ascii_of_nat 10.
Definition dquote : ascii := ascii_of_nat 34.
Definition backslash : ascii := ascii_of_nat 92.

(** [s.split("\n")]: the pieces between newlines; never empty. *)
Fixpoint split_lines (s : string) : list string :=
  match s with
  | EmptyString => [EmptyString]
  | String c s' =>
      if is_char c newline then EmptyString :: split_lines s'
      else match split_lines s' with
           | piece :: pieces => String c piece :: pieces
           | [] => [String c EmptyString]
           end
  end.

(** [lines.pop()]: the array without its last element, and that
    element ([None] stands for [undefined], on an empty array). *)
Fixpoint pop (l : list string) : list string * option string :=
  match l with
  | [] => ([], None)
  | [x] => ([], Some x)
  | x :: l' => let '(front, last) := pop l' in (x :: front, last)
  end.

(** [x || d] on a string-or-undefined [x]: the empty string and
    [undefined] are falsy. *)
Definition or_default (x : option string) (d : string) : string :=
  match x with
  | Some (String c s) => String c s
  | Some EmptyString | None => d
  end.

Fixpoint no_newline (s : string) : bool :=
  match s with
  | EmptyString => true
  | String c s' => negb (is_char c newline) && no_newline s'
  end.

End JsString.

(** ** JSON values *)

(** A JSON number is kept as the decimal it was written as:
    [(-1)^negative * mantissa * 10^exponent].  The double it rounds to is
    computed where a number is converted to a string ([JsNumber] below);
    the other observation the code makes on a number, whether it is zero
    (falsy), follows the rounding. *)
Record number := Number { negative : bool; mantissa : N; exponent : Z }.

#[local] Set Warnings "-register-all".

Inductive json :=
| JNull
| JBool (b : bool)
| JNumber (n : number)
| JString (s : string)
| JArray (items : list json)
| JObject (members : list (string * json)).

(** A JavaScript value that may be [undefined]. *)
Abbreviation jsval := (option json).
Abbreviation undefined := (@None json).

(** A decimal rounds to zero when it is zero or at most half the least
    positive double, [2^-1075] (the tie goes to the even neighbour, zero). *)
Definition number_is_zero (n : number) : bool :=
  (mantissa n =? 0)%N
  || ((exponent n <? 0) && (Z.of_N (mantissa n) * 2 ^ 1075 <=? 10 ^ (- exponent n))).

(** ToBoolean *)
Definition truthy (v : jsval) : bool :=
  match v with
  | None => false
  | Some JNull => false
  | Some (JBool b) => b
  | Some (JNumber n) => negb (number_is_zero n)
  | Some (JString EmptyString) => false
  | Some (JString (String _ _)) => true
  | Some (JArray _) | Some (JObject _) => true
  end.

(** [a || b] *)
Definition js_or (a : jsval) (b : json) : json :=
  match a with
  | Some v => if truthy a then v else b
  | None => b
  end.

(** The own property [k] of an object built by [JSON.parse]: of
    duplicate names the last one wins. *)
Fixpoint lookup_member (k : string) (ms : list (string * json)) : jsval :=
  match ms with
  | [] => None
  | (k', v) :: ms' =>
      match lookup_member k ms' with
      | Some v' => Some v'
      | None => if String.eqb k k' then Some v else None
      end
  end.

(** ** [JSON.parse]

    A recursive-descent reader of the JSON grammar of ECMA-404: white
    space is space, tab, line feed and carriage return; numbers have no
    leading zeros or plus sign; strings have no raw control characters;
    no trailing commas.  [None] stands for the [SyntaxError]. *)

Module JsonParse.

Import JsString.

Definition is_ws (c : ascii) : bool :=
  let n := N_of_ascii c in
  ((n =? 32) || (n =? 9) || (n =? 10) || (n =? 13))%N.

Fixpoint skip_ws (s : string) : string :=
  match s with
  | String c s' => if is_ws c then skip_ws s' else s
  | EmptyString => EmptyString
  end.

Definition digit_of (c : ascii) : option N :=
  let n := N_of_ascii c in
  if ((48 <=? n) && (n <=? 57))%N then Some (n - 48)%N else None.

Definition hex_of (c : ascii) : option N :=
  let n := N_of_ascii c in
  if ((48 <=? n) && (n <=? 57))%N then Some (n - 48)%N
  else if ((65 <=? n) && (n <=? 70))%N then Some (n - 55)%N
  else if ((97 <=? n) && (n <=? 102))%N then Some (n - 87)%N
  else None.

(** The longest run of digits at the front of [s]. *)
Fixpoint take_digits (s : string) : list N * string :=
  match s with
  | String c s' =>
      match digit_of c with
      | Some d => let '(ds, rest) := take_digits s' in (d :: ds, rest)
      | None => ([], s)
      end
  | EmptyString => ([], EmptyString)
  end.

Definition digits_value (ds : list N) : N :=
  fold_left (fun acc d => (10 * acc + d)%N) ds 0%N.

(** [int]: a single zero, or a digit run that starts with 1-9. *)
Definition parse_int (s : string) : option (list N * string) :=
  match s with
  | String c s' =>
      match digit_of c with
      | Some 0%N => Some ([0%N], s')
      | Some d => let '(ds, rest) := take_digits s' in Some (d :: ds, rest)
      | None => None
      end
  | EmptyString => None
  end.

(** [frac]: a point and at least one digit, or nothing. *)
Definition parse_frac (s : string) : option (list N * string) :=
  match s with
  | String c s' =>
      if is_char c "."%char then
        match take_digits s' with
        | ([], _) => None
        | (ds, rest) => Some (ds, rest)
        end
      else Some ([], s)
  | EmptyString => Some ([], s)
  end.

(** [exp]: e or E, an optional sign and at least one digit, or nothing. *)
Definition parse_exp (s : string) : option (Z * string) :=
  match s with
  | String c s' =>
      if is_char c "e"%char || is_char c "E"%char then
        let '(neg, s'') :=
          match s' with
          | String d t =>
              if is_char d "-"%char then (true, t)
              else if is_char d "+"%char then (false, t)
              else (false, s')
          | EmptyString => (false, s')
          end in
        match take_digits s'' with
        | ([], _) => None
        | (ds, rest) =>
            let e := Z.of_N (digits_value ds) in
            Some (if neg then - e else e, rest)
        end
      else Some (0, s)
  | EmptyString => Some (0, s)
  end.

Definition parse_number (s : string) : option (number * string) :=
  let '(neg, s1) :=
    match s with
    | String c t => if is_char c "-"%char then (true, t) else (false, s)
    | EmptyString => (false, s)
    end in
  match parse_int s1 with
  | None => None
  | Some (ip, s2) =>
      match parse_frac s2 with
      | None => None
      | Some (fp, s3) =>
          match parse_exp s3 with
          | None => None
          | Some (e, s4) =>
              Some (Number neg (digits_value (ip ++ fp))
                           (e - Z.of_nat (length fp)), s4)
          end
      end
  end.

(** What a string literal holds: raw bytes of the text, and UTF-16 code
    units written as [\uXXXX]. *)
Inductive unit16 := Raw (c : ascii) | Escaped (u : N).

Definition simple_escape (c : ascii) : option ascii :=
  if is_char c dquote then Some dquote
  else if is_char c backslash then Some backslash
  else if is_char c "/"%char then Some "/"%char
  else if is_char c "b"%char then Some (ascii_of_nat 8)
  else if is_char c "f"%char then Some (ascii_of_nat 12)
  else if is_char c "n"%char then Some (ascii_of_nat 10)
  else if is_char c "r"%char then Some (ascii_of_nat 13)
  else if is_char c "t"%char then Some (ascii_of_nat 9)
  else None.

(** The characters of a string literal after its opening quote, up to
    and including the closing quote. *)
Fixpoint parse_chars (s : string) : option (list unit16 * string) :=
  match s with
  | EmptyString => None
  | String c s' =>
      if is_char c dquote then Some ([], s')
      else if is_char c backslash then
        match s' with
        | String e s'' =>
            if is_char e "u"%char then
              match s'' with
              | String h1 (String h2 (String h3 (String h4 rest))) =>
                  match hex_of h1, hex_of h2, hex_of h3, hex_of h4 with
                  | Some a, Some b, Some c', Some d =>
                      match parse_chars rest with
                      | Some (us, rest') =>
                          Some (Escaped (((a * 16 + b) * 16 + c') * 16 + d)%N :: us, rest')
                      | None => None
                      end
                  | _, _, _, _ => None
                  end
              | _ => None
              end
            else
              match simple_escape e with
              | Some x =>
                  match parse_chars s'' with
                  | Some (us, rest') => Some (Raw x :: us, rest')
                  | None => None
                  end
              | None => None
              end
        | EmptyString => None
        end
      else if (N_of_ascii c <? 32)%N then None
      else
        match parse_chars s' with
        | Some (us, rest') => Some (Raw c :: us, rest')
        | None => None
        end
  end.

Definition byte (n : N) : ascii := ascii_of_N n.

(** The UTF-8 bytes of a code point; a lone surrogate gets the
    three-byte form. *)
Definition utf8 (cp : N) : list ascii :=
  (if cp <? 128 then [byte cp]
   else if cp <? 2048 then [byte (192 + cp / 64); byte (128 + cp mod 64)]
   else if cp <? 65536 then
     [byte (224 + cp / 4096); byte (128 + (cp / 64) mod 64); byte (128 + cp mod 64)]
   else
     [byte (240 + cp / 262144); byte (128 + (cp / 4096) mod 64);
      byte (128 + (cp / 64) mod 64); byte (128 + cp mod 64)])%N.

Definition is_high (u : N) : bool := ((55296 <=? u) && (u <=? 56319))%N.
Definition is_low (u : N) : bool := ((56320 <=? u) && (u <=? 57343))%N.

(** A high surrogate followed by a low one is one code point. *)
Fixpoint encode_units (us : list unit16) : list ascii :=
  match us with
  | [] => []
  | Raw c :: us' => c :: encode_units us'
  | Escaped u :: us' =>
      match us' with
      | Escaped v :: us'' =>
          if is_high u && is_low v
          then utf8 (65536 + (u - 55296) * 1024 + (v - 56320))%N ++ encode_units us''
          else utf8 u ++ encode_units us'
      | _ => utf8 u ++ encode_units us'
      end
  end.

Definition parse_string (s : string) : option (string * string) :=
  match parse_chars s with
  | Some (us, rest) => Some (string_of_list_ascii (encode_units us), rest)
  | None => None
  end.

(** [expect p s]: [s] without its prefix [p]. *)
Fixpoint expect (p s : string) : option string :=
  match p, s with
  | EmptyString, _ => Some s
  | String a p', String b s' => if is_char a b then expect p' s' else None
  | String _ _, EmptyString => None
  end.

(** One value, with white space allowed before it; the fuel bounds the
    nesting and the number of elements. *)
Fixpoint parse_value (fuel : nat) (s : string) {struct fuel}
  : option (json * string) :=
  match fuel with
  | O => None
  | S fuel' =>
      match skip_ws s with
      | EmptyString => None
      | String c s' =>
          if is_char c "{"%char then
            match skip_ws s' with
            | String d s'' =>
                if is_char d "}"%char then Some (JObject [], s'')
                else parse_members fuel' [] s'
            | EmptyString => None
            end
          else if is_char c "["%char then
            match skip_ws s' with
            | String d s'' =>
                if is_char d "]"%char then Some (JArray [], s'')
                else parse_elements fuel' [] s'
            | EmptyString => None
            end
          else if is_char c dquote then
            match parse_string s' with
            | Some (str, rest) => Some (JString str, rest)
            | None => None
            end
          else if is_char c "t"%char then
            option_map (pair (JBool true)) (expect "rue" s')
          else if is_char c "f"%char then
            option_map (pair (JBool false)) (expect "alse" s')
          else if is_char c "n"%char then
            option_map (pair JNull) (expect "ull" s')
          else
            match parse_number (String c s') with
            | Some (n, rest) => Some (JNumber n, rest)
            | None => None
            end
      end
  end
with parse_elements (fuel : nat) (acc : list json) (s : string) {struct fuel}
  : option (json * string) :=
  match fuel with
  | O => None
  | S fuel' =>
      match parse_value fuel' s with
      | None => None
      | Some (v, rest) =>
          match skip_ws rest with
          | String c rest' =>
              if is_char c ","%char then parse_elements fuel' (v :: acc) rest'
              else if is_char c "]"%char then Some (JArray (rev (v :: acc)), rest')
              else None
          | EmptyString => None
          end
      end
  end
with parse_members (fuel : nat) (acc : list (string * json)) (s : string)
                   {struct fuel} : option (json * string) :=
  match fuel with
  | O => None
  | S fuel' =>
      match skip_ws s with
      | String q s1 =>
          if is_char q dquote then
            match parse_string s1 with
            | None => None
            | Some (k, s2) =>
                match skip_ws s2 with
                | String c s3 =>
                    if is_char c ":"%char then
                      match parse_value fuel' s3 with
                      | None => None
                      | Some (v, s4) =>
                          match skip_ws s4 with
                          | String d s5 =>
                              if is_char d ","%char
                              then parse_members fuel' ((k, v) :: acc) s5
                              else if is_char d "}"%char
                              then Some (JObject (rev ((k, v) :: acc)), s5)
                              else None
                          | EmptyString => None
                          end
                      end
                    else None
                | EmptyString => None
                end
            end
          else None
      | EmptyString => None
      end
  end.

(** Two units of fuel per character, which cover every text
    ([JsonParseFacts.parse_value_fuel]). *)
Definition fuel_for (s : string) : nat := 2 * String.length s + 2.

End JsonParse.

(** [JSON.parse(text)] *)
Definition JSON_parse (text : string) : option json :=
  match JsonParse.parse_value (JsonParse.fuel_for text) text with
  | Some (v, rest) =>
      match JsonParse.skip_ws rest with
      | EmptyString => Some v
      | String _ _ => None
      end
  | None => None
  end.


(** ** [JSON.stringify] *)

Module JsonPrint.

Import JsString.

Definition digit_char (d : N) : ascii := ascii_of_N (48 + d).
Definition hex_char (d : N) : ascii :=
  ascii_of_N (if (d <? 10)%N then 48 + d else 87 + d).

(** The decimal digits of [n], most significant first. *)
Fixpoint digits_go (fuel : nat) (n : N) (acc : list N) : list N :=
  match fuel with
  | O => acc
  | S fuel' =>
      if (n <? 10)%N then n :: acc
      else digits_go fuel' (n / 10)%N ((n mod 10)%N :: acc)
  end.

Definition digits (n : N) : list N := digits_go (S (N.size_nat n)) n [].

Definition nat_string (n : N) : list ascii := map digit_char (digits n).

(** The digits without their trailing zeros, and how many were cut. *)
Fixpoint strip_zeros (rev_ds : list N) (cut : nat) : list N * nat :=
  match rev_ds with
  | 0%N :: ds' => strip_zeros ds' (S cut)
  | _ => (rev rev_ds, cut)
  end.

(** Number::toString: with [k] digits [s] and the point after the
    [n]-th digit, plain notation for [-6 < n <= 21], else exponent
    notation. *)
Definition number_string (x : number) : list ascii :=
  if (mantissa x =? 0)%N then ["0"%char]
  else
    let '(s, cut) := strip_zeros (rev (digits (mantissa x))) 0 in
    let k := Z.of_nat (length s) in
    let n := k + exponent x + Z.of_nat cut in
    let sd := map digit_char s in
    let body :=
      if (k <=? n) && (n <=? 21) then
        sd ++ repeat "0"%char (Z.to_nat (n - k))
      else if (0 <? n) && (n <=? 21) then
        firstn (Z.to_nat n) sd ++ "."%char :: skipn (Z.to_nat n) sd
      else if (-6 <? n) && (n <=? 0) then
        "0"%char :: "."%char :: repeat "0"%char (Z.to_nat (- n)) ++ sd
      else
        let e := n - 1 in
        let es := (if e <? 0 then "-"%char else "+"%char)
                    :: nat_string (Z.to_N (Z.abs e)) in
        match sd with
        | [d] => d :: "e"%char :: es
        | d :: ds => d :: "."%char :: ds ++ "e"%char :: es
        | [] => []
        end in
    if negative x then "-"%char :: body else body.

Definition u_escape (u : N) : list ascii :=
  [backslash; "u"%char; hex_char (u / 4096); hex_char ((u / 256) mod 16);
   hex_char ((u / 16) mod 16); hex_char (u mod 16)]%N.

(** QuoteJSONString without the quotes: the short escapes, [\u00xx]
    for the other control characters and [\udxxx] for a lone surrogate
    (three bytes from 0xED 0xA0). *)
Fixpoint escape (s : list ascii) : list ascii :=
  match s with
  | [] => []
  | c :: s' =>
      let n := N_of_ascii c in
      if (n =? 8)%N then backslash :: "b"%char :: escape s'
      else if (n =? 9)%N then backslash :: "t"%char :: escape s'
      else if (n =? 10)%N then backslash :: "n"%char :: escape s'
      else if (n =? 12)%N then backslash :: "f"%char :: escape s'
      else if (n =? 13)%N then backslash :: "r"%char :: escape s'
      else if (n =? 34)%N then backslash :: dquote :: escape s'
      else if (n =? 92)%N then backslash :: backslash :: escape s'
      else if (n <? 32)%N then u_escape n ++ escape s'
      else
        match s' with
        | c2 :: c3 :: s'' =>
            let n2 := N_of_ascii c2 in
            let n3 := N_of_ascii c3 in
            if ((n =? 237) && (160 <=? n2) && (n2 <=? 191)
                && (128 <=? n3) && (n3 <=? 191))%N
            then u_escape (53248 + (n2 mod 64) * 64 + n3 mod 64)%N ++ escape s''
            else c :: escape s'
        | _ => c :: escape s'
        end
  end.

Definition quote (s : string) : list ascii :=
  dquote :: escape (list_ascii_of_string s) ++ [dquote].

Fixpoint commas (parts : list (list ascii)) : list ascii :=
  match parts with
  | [] => []
  | [p] => p
  | p :: ps => p ++ ","%char :: commas ps
  end.

(** An object prints a name once, at its first position and with its
    last value. *)
Fixpoint print (v : json) : list ascii :=
  match v with
  | JNull => list_ascii_of_string "null"
  | JBool true => list_ascii_of_string "true"
  | JBool false => list_ascii_of_string "false"
  | JNumber n => number_string n
  | JString s => quote s
  | JArray items => "["%char :: commas (map print items) ++ ["]"%char]
  | JObject members =>
      let printed := map (fun kv => (fst kv, print (snd kv))) members in
      let fix go (ms : list (string * list ascii)) (seen : list string)
          : list (list ascii) :=
        match ms with
        | [] => []
        | (k, p) :: ms' =>
            if existsb (String.eqb k) seen then go ms' seen
            else
              let fix last_value (ms2 : list (string * list ascii))
                                 (cur : list ascii) : list ascii :=
                match ms2 with
                | [] => cur
                | (k2, p2) :: ms2' =>
                    last_value ms2' (if String.eqb k k2 then p2 else cur)
                end in
              (quote k ++ ":"%char :: last_value ms' p) :: go ms' (k :: seen)
        end in
      "{"%char :: commas (go printed []) ++ ["}"%char]
  end.

End JsonPrint.

(** [JSON.stringify(v)] of a value without [undefined], functions or
    non-finite numbers, and whose member names are not array indices
    (which an object would put first); the payloads of this module are
    such values. *)
Definition JSON_stringify (v : json) : string :=
  string_of_list_ascii (JsonPrint.print v).

(** ** Numbers as doubles

    A number of JavaScript is a double.  The decimal of a JSON text
    stands for the double nearest to it, and a double prints as the
    shortest decimal that rounds back to it, so a long decimal prints
    with its last digits changed and a decimal beyond the largest double
    prints as [Infinity].  All of it is computed on integers. *)

Module JsNumber.

(** The magnitude of a double: zero, [m * 2^e] with [m < 2^53] and
    [-1074 <= e <= 971] ([2^52 <= m] unless [e = -1074]), or infinity. *)
Inductive magnitude := Zero | Finite (m : N) (e : Z) | Infinite.

(** The fraction [(n / d) / 2^e]. *)
Definition scaled (n d : N) (e : Z) : N * N :=
  if 0 <=? e then (n, (d * 2 ^ Z.to_N e)%N)
  else ((n * 2 ^ Z.to_N (- e))%N, d).

(** The integer nearest to [n / d], the even one of two. *)
Definition round_div (n d : N) : N :=
  let q := (n / d)%N in
  match (2 * (n mod d) ?= d)%N with
  | Lt => q
  | Gt => (q + 1)%N
  | Eq => if N.even q then q else (q + 1)%N
  end.

(** The largest [l] with [2^l <= n / d], for [n, d > 0]. *)
Definition log2_floor (n d : N) : Z :=
  let l := Z.of_N (N.log2 n) - Z.of_N (N.log2 d) in
  let '(n', d') := scaled n d l in
  if (d' <=? n')%N then l else l - 1.

(** The double nearest to [n / d] (ties to the even mantissa). *)
Definition round (n d : N) : magnitude :=
  if (n =? 0)%N then Zero
  else
    let e := Z.max (log2_floor n d - 52) (-1074) in
    let '(n', d') := scaled n d e in
    let m := round_div n' d' in
    if (m =? 0)%N then Zero
    else
      let '(m, e) := if (m =? 2 ^ 53)%N then ((2 ^ 52)%N, e + 1) else (m, e) in
      if 971 <? e then Infinite else Finite m e.

(** The fraction [m * 10^e]. *)
Definition fraction (m : N) (e : Z) : N * N :=
  if 0 <=? e then ((m * 10 ^ Z.to_N e)%N, 1%N)
  else (m, (10 ^ Z.to_N (- e))%N).

(** The double nearest to the decimal [m * 10^e] of [k] digits: one
    that is at least [10^309] is beyond the doubles, one below
    [10^-324] is below half the least of them. *)
Definition of_decimal (m : N) (e : Z) : magnitude :=
  let k := Z.of_nat (List.length (JsonPrint.digits m)) in
  if (m =? 0)%N then Zero
  else if 309 <=? k - 1 + e then Infinite
  else if k + e <=? -324 then Zero
  else let '(n, d) := fraction m e in round n d.

Definition same (a b : magnitude) : bool :=
  match a, b with
  | Zero, Zero | Infinite, Infinite => true
  | Finite m e, Finite m' e' => (m =? m')%N && (e =? e')
  | _, _ => false
  end.

(** The largest [t] with [10^t <= n / d], searched upwards from [t]. *)
Fixpoint log10_from (fuel : nat) (n d : N) (t : Z) : Z :=
  match fuel with
  | O => t
  | S fuel' =>
      let '(p, q) := fraction 1 (t + 1) in
      if (p * d <=? n * q)%N then log10_from fuel' n d (t + 1) else t
  end.

Definition log10_floor (n d : N) : Z :=
  log10_from 4 n d ((log2_floor n d * 30103) / 100000 - 1).

(** The digits of the shortest decimal that rounds to the double
    [m * 2^e], the nearest to it of those with as few digits, and the
    exponent of its last digit. *)
Fixpoint shortest_from (fuel : nat) (m : N) (e : Z) (n d : N) (t : Z) (k : Z)
  : N * Z :=
  let p := t + 1 - k in
  let '(pn, pd) := fraction 1 p in
  (* the first [k] digits of [n / d], and the next decimal of [k] digits *)
  let lo := ((n * pd) / (d * pn))%N in
  let hi := (lo + 1)%N in
  let lo_ok := same (of_decimal lo p) (Finite m e) in
  let hi_ok := same (of_decimal hi p) (Finite m e) in
  let nearest :=
    match (2 * n * pd ?= (lo + hi) * pn * d)%N with
    | Lt => lo
    | Gt => hi
    | Eq => if N.even lo then lo else hi
    end in
  match fuel with
  | O => (nearest, p)
  | S fuel' =>
      if lo_ok && hi_ok then (nearest, p)
      else if lo_ok then (lo, p)
      else if hi_ok then (hi, p)
      else shortest_from fuel' m e n d t (k + 1)
  end.

Definition shortest (m : N) (e : Z) : N * Z :=
  let '(n, d) := scaled m 1 (- e) in
  shortest_from 16 m e n d (log10_floor n d) 1.

(** Number::toString of the double that the decimal [x] rounds to. *)
Definition to_string (x : number) : list ascii :=
  match of_decimal (mantissa x) (exponent x) with
  | Zero => ["0"%char]
  | Infinite =>
      list_ascii_of_string (if negative x then "-Infinity" else "Infinity")
  | Finite m e =>
      let '(s, p) := shortest m e in
      JsonPrint.number_string (Number (negative x) s p)
  end.

End JsNumber.

(** Texts with quotation marks are written with apostrophes:
    [wire "{'a':1}"] is the text with a quotation mark for each
    apostrophe. *)
Fixpoint wire (s : string) : string :=
  match s with
  | EmptyString => EmptyString
  | String c s' =>
      String (if JsString.is_char c "'"%char then JsString.dquote else c) (wire s')
  end.


(** ** Exceptions, the world and the effect monad *)

Inductive exn :=
| Error (message : json)        (* [new Error(message)] *)
| TypeError                     (* a property read on [null], a value
                                   without a string conversion *)
| SyntaxError                   (* [JSON.parse] of a malformed text *)
| Failure (name : string).      (* raised by the platform or the caller *)

Inductive outcome (A : Type) :=
| Return (a : A)
| Throw (e : exn).
Arguments Return {A} a.
Arguments Throw {A} e.

(** What [fetch] is called with. *)
Record request := Request {
  req_url : string;
  req_method : option string;
  req_headers : gmap string string;
  req_body : option string }.

(** The [options] of [apiFetch]: the fields of [RequestInit] in use. *)
Record RequestInit := Init {
  init_method : option string;
  init_headers : option (gmap string string);
  init_body : option string }.

(** A response body as its reader delivers it: each [read()] resolves
    with a piece of text (what the UTF-8 decoder, in streaming mode,
    yields for the bytes of that read), resolves with [done], or rejects. *)
Inductive body_stream :=
| EndOfStream
| Read (text : string) (rest : body_stream)
| ReadError (e : exn).

Record response := Response {
  status : Z;
  body : option body_stream }.

(** [res.ok] *)
Definition ok (res : response) : bool :=
  (200 <=? status res) && (status res <=? 299).

Inductive fetch_result :=
| Responds (res : response)
| Rejects (e : exn).

(** The network: what [fetch] settles with for a request. *)
Definition transport := request -> fetch_result.

(** A call of one of the three callbacks of [sendMessageStream]. *)
Inductive call :=
| OnChunk (text : jsval)
| OnDone (sources : json)
| OnError (error : jsval).

(** The caller's callbacks: what a call throws, if anything. *)
Definition handlers := call -> option exn.

(** [localStorage]: its items, or the exception that touching it raises
    (the global is not defined, or access is denied). *)
Inductive storage :=
| Available (items : gmap string string)
| Unavailable (e : exn).

Record world := World {
  NEXT_PUBLIC_API_URL : option string;  (* process.env.NEXT_PUBLIC_API_URL *)
  has_window : bool;                    (* typeof window !== "undefined" *)
  localStorage : storage;
  navigations : list string;            (* values assigned to window.location.href *)
  requests : list request;              (* calls of fetch, oldest first *)
  calls : list call }.                  (* callbacks invoked, oldest first *)

Definition with_storage (st : storage) (w : world) : world :=
  World (NEXT_PUBLIC_API_URL w) (has_window w) st (navigations w) (requests w) (calls w).
Definition with_navigations (n : list string) (w : world) : world :=
  World (NEXT_PUBLIC_API_URL w) (has_window w) (localStorage w) n (requests w) (calls w).
Definition with_requests (r : list request) (w : world) : world :=
  World (NEXT_PUBLIC_API_URL w) (has_window w) (localStorage w) (navigations w) r (calls w).
Definition with_calls (c : list call) (w : world) : world :=
  World (NEXT_PUBLIC_API_URL w) (has_window w) (localStorage w) (navigations w) (requests w) c.

(** A computation reads and changes the world and returns or throws. *)
Definition M (A : Type) : Type := world -> outcome A * world.

Definition ret {A} (a : A) : M A := fun w => (Return a, w).
Definition throw {A} (e : exn) : M A := fun w => (Throw e, w).
Definition bind {A B} (m : M A) (k : A -> M B) : M B :=
  fun w => match m w with
           | (Return a, w') => k a w'
           | (Throw e, w') => (Throw e, w')
           end.
(** [try { m } catch { handler }], and [promise.catch(handler)] *)
Definition catch {A} (m : M A) (handler : exn -> M A) : M A :=
  fun w => match m w with
           | (Return a, w') => (Return a, w')
           | (Throw e, w') => handler e w'
           end.
Definition lift {A} (o : outcome A) : M A := fun w => (o, w).

#[global] Instance M_ret : MRet M := @ret.
#[global] Instance M_bind : MBind M := fun A B k m => bind m k.

(** [for (const x of xs) f(x)] *)
Fixpoint for_each {A} (f : A -> M ()) (xs : list A) : M () :=
  match xs with
  | [] => ret ()
  | x :: xs' => f x ;; for_each f xs'
  end.

(** *** Platform operations *)

Definition typeof_window_defined : M bool := fun w => (Return (has_window w), w).

Definition localStorage_getItem (k : string) : M (option string) :=
  fun w => match localStorage w with
           | Available items => (Return (items !! k), w)
           | Unavailable e => (Throw e, w)
           end.

Definition localStorage_setItem (k v : string) : M () :=
  fun w => match localStorage w with
           | Available items => (Return (), with_storage (Available (<[k := v]> items)) w)
           | Unavailable e => (Throw e, w)
           end.

Definition localStorage_removeItem (k : string) : M () :=
  fun w => match localStorage w with
           | Available items => (Return (), with_storage (Available (delete k items)) w)
           | Unavailable e => (Throw e, w)
           end.

(** [window.location.href = target] *)
Definition set_location_href (target : string) : M () :=
  fun w => (Return (), with_navigations (navigations w ++ [target]) w).

Definition fetch (net : transport) (r : request) : M response :=
  fun w => let w' := with_requests (requests w ++ [r]) w in
           match net r with
           | Responds res => (Return res, w')
           | Rejects e => (Throw e, w')
           end.

(** Calling a callback of the caller. *)
Definition invoke (h : handlers) (c : call) : M () :=
  fun w => let w' := with_calls (calls w ++ [c]) w in
           match h c with
           | None => (Return (), w')
           | Some e => (Throw e, w')
           end.

Fixpoint read_all (b : body_stream) : outcome string :=
  match b with
  | EndOfStream => Return EmptyString
  | Read text rest =>
      match read_all rest with
      | Return s => Return (text +:+ s)
      | Throw e => Throw e
      end
  | ReadError e => Throw e
  end.

(** [res.json()]: the whole body, parsed; rejects when a read fails or
    the text is not JSON (an absent body reads as the empty text). *)
Definition res_json (res : response) : outcome json :=
  match match body res with
        | Some b => read_all b
        | None => Return EmptyString
        end with
  | Return text =>
      match JSON_parse text with
      | Some v => Return v
      | None => Throw SyntaxError
      end
  | Throw e => Throw e
  end.

(** [v.k] for the names the code reads ([type], [content], [sources],
    [detail]), which no built-in prototype defines: an own member of an
    object, [undefined] on the other values, a [TypeError] on [null]. *)
Definition get_prop (v : json) (k : string) : outcome jsval :=
  match v with
  | JNull => Throw TypeError
  | JObject members => Return (lookup_member k members)
  | _ => Return None
  end.

(** [v === s] for a string literal [s] *)
Definition is_string (v : jsval) (s : string) : bool :=
  match v with
  | Some (JString s') => String.eqb s' s
  | _ => false
  end.

(** *** Conversion to a string

    ToString of a value built by [JSON.parse].  A string is itself and
    a number prints as its double.  An array is its elements joined by
    commas, [null] giving the empty text.  An object goes through its
    [toString]: without an own member of that name it is the method of
    [Object.prototype], which gives "[object Object]"; an own member
    [toString] hides the method and, being a value of JSON, cannot be
    called, [valueOf] gives no primitive, and the conversion throws a
    TypeError.  The array throws when one of its elements does. *)
Fixpoint to_string (v : json) : outcome (list ascii) :=
  match v with
  | JNull => Return (list_ascii_of_string "null")
  | JBool true => Return (list_ascii_of_string "true")
  | JBool false => Return (list_ascii_of_string "false")
  | JNumber n => Return (JsNumber.to_string n)
  | JString s => Return (list_ascii_of_string s)
  | JArray items =>
      let fix join (xs : list json) : outcome (list (list ascii)) :=
        match xs with
        | [] => Return []
        | x :: xs' =>
            match match x with
                  | JNull => Return []
                  | _ => to_string x
                  end with
            | Return part =>
                match join xs' with
                | Return parts => Return (part :: parts)
                | Throw e => Throw e
                end
            | Throw e => Throw e
            end
        end in
      match join items with
      | Return parts => Return (JsonPrint.commas parts)
      | Throw e => Throw e
      end
  | JObject members =>
      match lookup_member "toString" members with
      | Some _ => Throw TypeError
      | None => Return (list_ascii_of_string "[object Object]")
      end
  end.

(** [String(v)], and the conversion of an argument to a string by the
    platform ([localStorage.setItem], [new Error]). *)
Definition js_to_string (v : jsval) : outcome string :=
  match v with
  | Some j =>
      match to_string j with
      | Return text => Return (string_of_list_ascii text)
      | Throw e => Throw e
      end
  | None => Return "undefined"
  end.

(** [`${n}`] for a number [n]. *)
Definition number_text (n : number) : string :=
  string_of_list_ascii (JsNumber.to_string n).

(** [new Error(message)]: the message is converted to a string when the
    error is built, so that building it can throw. *)
Definition new_Error (message : json) : outcome exn :=
  match js_to_string (Some message) with
  | Return _ => Return (Error message)
  | Throw e => Throw e
  end.

(** [localStorage.setItem(k, v)] for a value [v] not known to be a
    string: reaching the storage comes first, then the conversion of
    [v], then the write. *)
Definition localStorage_setItem_value (k : string) (v : jsval) : M () :=
  fun w => match localStorage w with
           | Available items =>
               match js_to_string v with
               | Return text =>
                   (Return (), with_storage (Available (<[k := text]> items)) w)
               | Throw e => (Throw e, w)
               end
           | Unavailable e => (Throw e, w)
           end.

(** ** The session store *)

(** [process.env.NEXT_PUBLIC_API_URL || "http://localhost:8000"] *)
Definition API_URL (w : world) : string :=
  JsString.or_default (NEXT_PUBLIC_API_URL w) "http://localhost:8000".

Definition getToken : M (option string) :=
  win ← typeof_window_defined;
  if negb win then ret None
  else localStorage_getItem "token".

Definition setToken (token : string) : M () :=
  localStorage_setItem "token" token.

(** [setToken(token)] called with whatever a response holds, as [login]
    and [signup] do. *)
Definition setToken_value (token : jsval) : M () :=
  localStorage_setItem_value "token" token.

Definition clearToken : M () :=
  localStorage_removeItem "token".

(** Truthiness of a string or [null]. *)
Definition truthy_string (s : option string) : bool :=
  match s with
  | Some (String _ _) => true
  | Some EmptyString | None => false
  end.

(** [!!getToken()] *)
Definition isLoggedIn : M bool :=
  token ← getToken;
  ret (negb (negb (truthy_string token))).

(** ** The request dispatcher *)

Definition read_API_URL : M string := fun w => (Return (API_URL w), w).

(** The [headers] object of [apiFetch]: in
    [{ "Content-Type": ..., ...options.headers }] the caller's entry
    wins; [Authorization] is assigned afterwards, under [if (token)]. *)
Definition api_headers (token : option string) (options : RequestInit)
  : gmap string string :=
  let headers : gmap string string :=
    default ∅ (init_headers options) ∪ {[ "Content-Type" := "application/json" ]} in
  match token with
  | Some t => if truthy_string token
              then <[ "Authorization" := "Bearer " +:+ t ]> headers
              else headers
  | None => headers
  end.

(** [fetch(`${API_URL}${path}`, { ...options, headers })] *)
Definition api_request (api : string) (token : option string) (path : string)
                       (options : RequestInit) : request :=
  Request (api +:+ path) (init_method options) (api_headers token options)
          (init_body options).

(** [apiFetch] from the response on. *)
Definition settle (res : response) : M json :=
  if status res =? 401 then
    clearToken ;;
    win ← typeof_window_defined;
    (if win : bool then set_location_href "/login" else ret ()) ;;
    throw (Error (JString "Unauthorized"))
  else if negb (ok res) then
    error ← catch (lift (res_json res))
                  (fun _ => ret (JObject [("detail", JString "Request failed")]));
    detail ← lift (get_prop error "detail");
    err ← lift (new_Error (js_or detail (JString "Request failed")));
    throw err
  else
    lift (res_json res).

Definition apiFetch (net : transport) (path : string) (options : RequestInit)
  : M json :=
  token ← getToken;
  api ← read_API_URL;
  res ← fetch net (api_request api token path options);
  settle res.

(** ** Chat *)

Inductive Role := user | assistant.

Definition role_name (r : Role) : string :=
  match r with
  | user => "user"
  | assistant => "assistant"
  end.

Record Source := {
  filename : string;
  type : string;
  drive_link : option string }.

Record ChatMessage := {
  role : Role;
  content : string;
  sources : option (list Source) }.

(** [{ role: m.role, content: m.content }] *)
Definition history_entry (m : ChatMessage) : json :=
  JObject [("role", JString (role_name (role m)));
           ("content", JString (content m))].

(** The object that [sendMessage] and [sendMessageStream] serialise. *)
Definition chat_payload (message mode : string) (year : number) (stream : string)
                        (conversationHistory : list ChatMessage) : json :=
  JObject [("message", JString message);
           ("mode", JString mode);
           ("year", JNumber year);
           ("stream", JString stream);
           ("conversation_history", JArray (map history_entry conversationHistory))].

Definition sendMessage (net : transport) (message mode : string) (year : number)
                       (stream : string) (conversationHistory : list ChatMessage)
  : M json :=
  apiFetch net "/chat"
    (Init (Some "POST") None
          (Some (JSON_stringify
                   (chat_payload message mode year stream conversationHistory)))).

(** ** The streaming consumer *)

(** The template literal [`Bearer ${token}`]: [null] prints as "null". *)
Definition bearer (token : option string) : string :=
  "Bearer " +:+ match token with
                | Some t => t
                | None => "null"
                end.

(** The request of [sendMessageStream]. *)
Definition stream_request (api : string) (token : option string)
                          (message mode : string) (year : number) (stream : string)
                          (conversationHistory : list ChatMessage) : request :=
  Request (api +:+ "/chat/stream") (Some "POST")
          (<[ "Authorization" := bearer token ]>
             {[ "Content-Type" := "application/json" ]})
          (Some (JSON_stringify
                   (chat_payload message mode year stream conversationHistory))).

(** The body of the [for] loop: one line of the buffer. *)
Definition handle_line (h : handlers) (line : string) : M () :=
  if JsString.startsWith "data: " line then
    catch
      (data ← lift (match JSON_parse (JsString.slice 6 line) with
                    | Some v => Return v
                    | None => Throw SyntaxError
                    end);
       ty ← lift (get_prop data "type");
       if is_string ty "chunk" then
         c ← lift (get_prop data "content");
         invoke h (OnChunk c)
       else if is_string ty "done" then
         s ← lift (get_prop data "sources");
         invoke h (OnDone (js_or s (JArray [])))
       else if is_string ty "error" then
         c ← lift (get_prop data "content");
         invoke h (OnError c)
       else ret ())
      (fun _ => ret ())   (* skip malformed lines *)
  else ret ().

(** The [while (true)] loop over the reads of the body. *)
Fixpoint read_loop (h : handlers) (reader : body_stream) (buffer : string)
  : M () :=
  match reader with
  | EndOfStream => ret ()
  | ReadError e => throw e
  | Read text rest =>
      let buffer := buffer +:+ text in
      let '(lines, last) := JsString.pop (JsString.split_lines buffer) in
      let buffer := JsString.or_default last EmptyString in
      for_each (handle_line h) lines ;;
      read_loop h rest buffer
  end.

(** [sendMessageStream] from the response on. *)
Definition consume (h : handlers) (res : response) : M () :=
  if negb (ok res) then
    error ← catch (lift (res_json res))
                  (fun _ => ret (JObject [("detail", JString "Stream failed")]));
    detail ← lift (get_prop error "detail");
    invoke h (OnError (Some (js_or detail (JString "Stream failed"))))
  else
    match body res with
    | None => invoke h (OnError (Some (JString "No response body")))
    | Some reader => read_loop h reader EmptyString
    end.

Definition sendMessageStream (net : transport) (message mode : string)
                             (year : number) (stream : string)
                             (conversationHistory : list ChatMessage)
                             (h : handlers) : M () :=
  token ← getToken;
  api ← read_API_URL;
  res ← fetch net (stream_request api token message mode year stream
                                  conversationHistory);
  consume h res.

(** ** Streams as text *)

Definition nl : string := String JsString.newline EmptyString.

(** The text of newline-terminated lines. *)
Fixpoint unlines (ls : list string) : string :=
  match ls with
  | [] => EmptyString
  | l :: ls' => l +:+ nl +:+ unlines ls'
  end.

Fixpoint concat_text (reads : list string) : string :=
  match reads with
  | [] => EmptyString
  | r :: reads' => r +:+ concat_text reads'
  end.

(** A body delivered in the given pieces, then closed. *)
Fixpoint stream_of (reads : list string) : body_stream :=
  match reads with
  | [] => EndOfStream
  | r :: reads' => Read r (stream_of reads')
  end.

(** All the text a body delivers, and how its last read settles. *)
Fixpoint stream_text (b : body_stream) : string :=
  match b with
  | Read text rest => text +:+ stream_text rest
  | EndOfStream | ReadError _ => EmptyString
  end.

Fixpoint stream_end (b : body_stream) : outcome () :=
  match b with
  | Read _ rest => stream_end rest
  | EndOfStream => Return ()
  | ReadError e => Throw e
  end.

(** The newline-terminated lines of a text and the fragment after the
    last newline. *)
Fixpoint cut (s : string) : list string * string :=
  match s with
  | EmptyString => ([], EmptyString)
  | String c s' =>
      let '(ls, r) := cut s' in
      if JsString.is_char c JsString.newline then (EmptyString :: ls, r)
      else match ls with
           | [] => ([], String c r)
           | l :: ls' => (String c l :: ls', r)
           end
  end.

Definition complete_lines (s : string) : list string := fst (cut s).

(** The callback that a line of the stream triggers, if any. *)
Definition line_call (line : string) : option call :=
  if JsString.startsWith "data: " line then
    match JSON_parse (JsString.slice 6 line) with
    | Some (JObject members) =>
        let ty := lookup_member "type" members in
        if is_string ty "chunk" then Some (OnChunk (lookup_member "content" members))
        else if is_string ty "done"
        then Some (OnDone (js_or (lookup_member "sources" members) (JArray [])))
        else if is_string ty "error" then Some (OnError (lookup_member "content" members))
        else None
    | _ => None
    end
  else None.

(** Appending callback calls to the log of the world. *)
Definition emit (cs : list call) (w : world) : world :=
  with_calls (calls w ++ cs) w.

(** ** Worlds and transports for running the code *)

Definition browser (items : gmap string string) : world :=
  World None true (Available items) [] [] [].

(** No window; [localStorage] is there all the same. *)
Definition headless (items : gmap string string) : world :=
  World None false (Available items) [] [] [].

(** No window and no [localStorage]: touching it raises. *)
Definition server : world :=
  World None false (Unavailable (Failure "ReferenceError: localStorage is not defined"))
        [] [] [].

Definition quiet : handlers := fun _ => None.

Definition respond (st : Z) (reads : list string) : transport :=
  fun _ => Responds (Response st (Some (stream_of reads))).

Definition offline : transport := fun _ => Rejects (Failure "Failed to fetch").

Definition one : number := Number false 1 0.

(** ** Properties of requests, lines and histories *)

(** The [Authorization] header is [Bearer <credential>] when a credential
    is held and absent when none is. *)
Definition authorization_matches (token : option string) (r : request) : Prop :=
  req_headers r !! "Authorization" = (fun t => "Bearer " +:+ t) <$> token.

(** Every header the caller supplies is sent with the caller's value. *)
Definition caller_headers_sent (options : RequestInit) (r : request) : Prop :=
  forall hs k v, init_headers options = Some hs -> hs !! k = Some v ->
                 req_headers r !! k = Some v.

(** [isLoggedIn()] is true exactly when [getToken()] returns a token. *)
Definition logged_in_iff_token (w : world) : Prop :=
  fst (isLoggedIn w) = Return true <-> exists t, fst (getToken w) = Return (Some t).

(** A failed stream request is reported by one [onError] call with the
    [detail] of the body, or with the fixed message when the body is not
    JSON. *)
Definition reports_detail (res : response) (cs : list call) : Prop :=
  match res_json res with
  | Return v => exists d, get_prop v "detail" = Return d /\ cs = [OnError d]
  | Throw _ => cs = [OnError (Some (JString "Stream failed"))]
  end.

(** The run [run], started in the world [w], made the one call [c] and
    no other, and ended as that call did: normally when the callback
    returned, with its exception when it threw. *)
Definition reported_once (h : handlers) (c : call) (w : world)
                         (run : outcome () * world) : Prop :=
  calls (snd run) = calls w ++ [c] /\
  fst run = match h c with
            | None => Return ()
            | Some e => Throw e
            end.

(** The request body is the serialisation of an object whose
    [conversation_history] is the list of the [{role, content}] pairs of
    [hist], in order. *)
Definition carries_history (r : request) (hist : list ChatMessage) : Prop :=
  exists members,
    req_body r = Some (JSON_stringify (JObject members)) /\
    lookup_member "conversation_history" members =
      Some (JArray (map (fun m => JObject [("role", JString (role_name (role m)));
                                           ("content", JString (content m))])
                        hist)).

(** Two histories with the same roles and contents, message by message. *)
Definition same_but_sources (h1 h2 : list ChatMessage) : Prop :=
  Forall2 (fun m1 m2 => role m1 = role m2 /\ content m1 = content m2) h1 h2.

(** A line with the event marker whose remainder parses to [d]. *)
Definition data_line (l : string) (d : json) : Prop :=
  JsString.startsWith "data: " l = true /\
  JSON_parse (JsString.slice 6 l) = Some d.

(** A line with the event marker whose remainder is not JSON. *)
Definition malformed_line (l : string) : Prop :=
  JsString.startsWith "data: " l = true /\
  JSON_parse (JsString.slice 6 l) = None.

(** A line that carries an event, and the callback call of that event. *)
Inductive event_line : string -> call -> Prop :=
| chunk_event l d c :
    data_line l d ->
    get_prop d "type" = Return (Some (JString "chunk")) ->
    get_prop d "content" = Return c ->
    event_line l (OnChunk c)
| done_event l d s :
    data_line l d ->
    get_prop d "type" = Return (Some (JString "done")) ->
    get_prop d "sources" = Return s ->
    event_line l (OnDone (js_or s (JArray [])))
| error_event l d c :
    data_line l d ->
    get_prop d "type" = Return (Some (JString "error")) ->
    get_prop d "content" = Return c ->
    event_line l (OnError c).

Definition newline_free (ls : list string) : Prop :=
  Forall (fun l => JsString.no_newline l = true) ls.

(** The stream of the specification's example. *)
Definition three_events : string :=
  unlines [wire "data: {'type':'chunk','content':'a'}";
           wire "data: {'type':'chunk','content':'b'}";
           wire "data: {'type':'done','sources':[]}"].

(** ** More of the platform: [length], [window], [message] *)

(** [s.length]: the UTF-16 code units of a text, counted on its UTF-8
    bytes (none for a continuation byte, two for the first byte of a
    four-byte sequence). *)
Fixpoint utf16_length (s : string) : nat :=
  match s with
  | EmptyString => O
  | String c s' =>
      let n := N_of_ascii c in
      ((if (n <? 128)%N then 1
        else if (n <? 192)%N then 0
        else if (n <? 240)%N then 1
        else 2) + utf16_length s')%nat
  end.

(** [window.location.href = target] outside any guard: a
    ReferenceError where there is no window. *)
Definition window_location_assign (target : string) : M () :=
  fun w => if has_window w then set_location_href target w
           else (Throw (Failure "ReferenceError: window is not defined"), w).

(** [err.message] of a caught exception: of [new Error(m)] the string of
    [m] (an [Error m] is built by [new_Error] only, for an [m] that has
    one); of an exception of the platform, the text [platform] gives
    it. *)
Definition err_message (platform : exn -> string) (e : exn) : string :=
  match e with
  | Error m =>
      match js_to_string (Some m) with
      | Return text => text
      | Throw e' => platform e'
      end
  | _ => platform e
  end.

(** ** The rest of the client: authentication and conversations *)

(** [signup(data)]; [data] is the object the caller built. *)
Definition signup (net : transport) (data : json) : M json :=
  result ← apiFetch net "/auth/signup"
             (Init (Some "POST") None (Some (JSON_stringify data)));
  token ← lift (get_prop result "token");
  setToken_value token ;;
  ret result.

Definition login (net : transport) (email password : string) : M json :=
  result ← apiFetch net "/auth/login"
             (Init (Some "POST") None
                   (Some (JSON_stringify
                            (JObject [("email", JString email);
                                      ("password", JString password)]))));
  token ← lift (get_prop result "token");
  setToken_value token ;;
  ret result.

Definition forgotPassword (net : transport) (email : string) : M json :=
  apiFetch net "/auth/forgot-password"
    (Init (Some "POST") None
          (Some (JSON_stringify (JObject [("email", JString email)])))).

Definition getMe (net : transport) : M json :=
  apiFetch net "/auth/me" (Init None None None).

Definition logout : M () :=
  clearToken ;;
  window_location_assign "/login".

Definition listConversations (net : transport) : M json :=
  apiFetch net "/conversations/" (Init None None None).

(** The parameters default to "New Chat" and "study_buddy" when the
    argument is [undefined]. *)
Definition createConversation (net : transport) (title mode : option string)
  : M json :=
  apiFetch net "/conversations/"
    (Init (Some "POST") None
          (Some (JSON_stringify
                   (JObject [("title", JString (default "New Chat" title));
                             ("mode", JString (default "study_buddy" mode))])))).

(** [`/conversations/${id}`] *)
Definition conversation_path (id : number) : string :=
  "/conversations/" +:+ number_text id.

Definition getConversation (net : transport) (id : number) : M json :=
  apiFetch net (conversation_path id) (Init None None None).

Definition updateConversation (net : transport) (id : number) (data : json)
  : M json :=
  apiFetch net (conversation_path id)
    (Init (Some "PUT") None (Some (JSON_stringify data))).

Definition deleteConversation (net : transport) (id : number) : M json :=
  apiFetch net (conversation_path id) (Init (Some "DELETE") None None).

(** A call of one of the functions of the client that go through
    [apiFetch]. *)
Inductive api_call :=
| Signup (data : json)
| Login (email password : string)
| ForgotPassword (email : string)
| GetMe
| SendMessage (message mode : string) (year : number) (stream : string)
              (conversationHistory : list ChatMessage)
| ListConversations
| CreateConversation (title mode : option string)
| GetConversation (id : number)
| UpdateConversation (id : number) (data : json)
| DeleteConversation (id : number).

Definition perform (net : transport) (c : api_call) : M json :=
  match c with
  | Signup data => signup net data
  | Login email password => login net email password
  | ForgotPassword email => forgotPassword net email
  | GetMe => getMe net
  | SendMessage message mode year stream hist =>
      sendMessage net message mode year stream hist
  | ListConversations => listConversations net
  | CreateConversation title mode => createConversation net title mode
  | GetConversation id => getConversation net id
  | UpdateConversation id data => updateConversation net id data
  | DeleteConversation id => deleteConversation net id
  end.

(** ** The pages *)

(** The signup page: the state of the form, the paths pushed on the
    router and whether the default action of the submit event was
    prevented. *)
Module SignupPage.

Record page := Page {
  name : string;
  email : string;
  password : string;
  confirmPassword : string;
  error : string;
  loading : bool;
  pushed : list string;
  defaultPrevented : bool }.

Definition setError (e : string) (p : page) : page :=
  Page (name p) (email p) (password p) (confirmPassword p) e (loading p)
       (pushed p) (defaultPrevented p).
Definition setLoading (l : bool) (p : page) : page :=
  Page (name p) (email p) (password p) (confirmPassword p) (error p) l
       (pushed p) (defaultPrevented p).
Definition router_push (path : string) (p : page) : page :=
  Page (name p) (email p) (password p) (confirmPassword p) (error p) (loading p)
       (pushed p ++ [path]) (defaultPrevented p).
Definition preventDefault (p : page) : page :=
  Page (name p) (email p) (password p) (confirmPassword p) (error p) (loading p)
       (pushed p) true.

Definition handleSubmit (net : transport) (platform : exn -> string)
                        (p : page) (w : world) : page * world :=
  let p := preventDefault p in
  let p := setError EmptyString p in
  if negb (String.eqb (password p) (confirmPassword p)) then
    (setError "Passwords do not match" p, w)
  else if (utf16_length (password p) <? 6)%nat then
    (setError "Password must be at least 6 characters" p, w)
  else
    let p := setLoading true p in
    match signup net (JObject [("email", JString (email p));
                               ("name", JString (name p));
                               ("password", JString (password p))]) w with
    | (Return _, w') => (setLoading false (router_push "/chat" p), w')
    | (Throw err, w') =>
        (setLoading false
           (setError (JsString.or_default (Some (err_message platform err))
                                          "Signup failed") p), w')
    end.

End SignupPage.

Module LoginPage.

Record page := Page {
  email : string;
  password : string;
  error : string;
  loading : bool;
  pushed : list string;
  defaultPrevented : bool }.

Definition setError (e : string) (p : page) : page :=
  Page (email p) (password p) e (loading p) (pushed p) (defaultPrevented p).
Definition setLoading (l : bool) (p : page) : page :=
  Page (email p) (password p) (error p) l (pushed p) (defaultPrevented p).
Definition router_push (path : string) (p : page) : page :=
  Page (email p) (password p) (error p) (loading p) (pushed p ++ [path])
       (defaultPrevented p).
Definition preventDefault (p : page) : page :=
  Page (email p) (password p) (error p) (loading p) (pushed p) true.

Definition handleSubmit (net : transport) (platform : exn -> string)
                        (p : page) (w : world) : page * world :=
  let p := preventDefault p in
  let p := setError EmptyString p in
  let p := setLoading true p in
  match login net (email p) (password p) w with
  | (Return _, w') => (setLoading false (router_push "/chat" p), w')
  | (Throw err, w') =>
      (setLoading false
         (setError (JsString.or_default (Some (err_message platform err))
                                        "Login failed") p), w')
  end.

End LoginPage.

Module ForgotPasswordPage.

Record page := Page {
  email : string;
  message : jsval;
  error : string;
  loading : bool;
  defaultPrevented : bool }.

Definition setMessage (m : jsval) (p : page) : page :=
  Page (email p) m (error p) (loading p) (defaultPrevented p).
Definition setError (e : string) (p : page) : page :=
  Page (email p) (message p) e (loading p) (defaultPrevented p).
Definition setLoading (l : bool) (p : page) : page :=
  Page (email p) (message p) (error p) l (defaultPrevented p).
Definition preventDefault (p : page) : page :=
  Page (email p) (message p) (error p) (loading p) true.

Definition handleSubmit (net : transport) (platform : exn -> string)
                        (p : page) (w : world) : page * world :=
  let p := preventDefault p in
  let p := setError EmptyString p in
  let p := setMessage (Some (JString EmptyString)) p in
  let p := setLoading true p in
  match (result ← forgotPassword net (email p);
         lift (get_prop result "message")) w with
  | (Return m, w') => (setLoading false (setMessage m p), w')
  | (Throw err, w') =>
      (setLoading false
         (setError (JsString.or_default (Some (err_message platform err))
                                        "Something went wrong") p), w')
  end.

End ForgotPasswordPage.

(** The home page: its effect pushes one path on the router. *)
Module Home.

Definition effect (pushed : list string) : M (list string) :=
  logged ← isLoggedIn;
  if logged : bool then ret (pushed ++ ["/chat"])
  else ret (pushed ++ ["/login"]).

End Home.

(** ** Properties of the rest of the client *)

(** What [apiFetch] throws for a response that failed with a status
    other than 401: an [Error] with the detail of the body when that is
    truthy, else with "Request failed"; a TypeError when the body is
    [null] or the detail has no string conversion. *)
Definition failure_of (res : response) : outcome json :=
  match res_json res with
  | Return v =>
      match get_prop v "detail" with
      | Return d =>
          match new_Error (js_or d (JString "Request failed")) with
          | Return err => Throw err
          | Throw e => Throw e
          end
      | Throw e => Throw e
      end
  | Throw _ => Throw (Error (JString "Request failed"))
  end.

(** What [login] and [signup] do with the outcome of their request: the
    token of the result is stored, as a string, and the result
    returned; nothing is stored when the request failed, when the result
    is [null], or when the token has no string conversion. *)
Definition store_token (run : outcome json * world) : outcome json * world :=
  match run with
  | (Return result, w') =>
      match get_prop result "token" with
      | Return token =>
          match localStorage w' with
          | Available items =>
              match js_to_string token with
              | Return text =>
                  (Return result,
                   with_storage (Available (<[ "token" := text ]> items)) w')
              | Throw e => (Throw e, w')
              end
          | Unavailable e => (Throw e, w')
          end
      | Throw e => (Throw e, w')
      end
  | (Throw e, w') => (Throw e, w')
  end.

(** The first request that a call of the client makes, given the token
    it reads. *)
Definition request_of (api : string) (token : option string) (c : api_call)
  : request :=
  match c with
  | Signup data =>
      api_request api token "/auth/signup"
        (Init (Some "POST") None (Some (JSON_stringify data)))
  | Login email password =>
      api_request api token "/auth/login"
        (Init (Some "POST") None
              (Some (JSON_stringify (JObject [("email", JString email);
                                              ("password", JString password)]))))
  | ForgotPassword email =>
      api_request api token "/auth/forgot-password"
        (Init (Some "POST") None
              (Some (JSON_stringify (JObject [("email", JString email)]))))
  | GetMe => api_request api token "/auth/me" (Init None None None)
  | SendMessage message mode year stream hist =>
      api_request api token "/chat"
        (Init (Some "POST") None
              (Some (JSON_stringify (chat_payload message mode year stream hist))))
  | ListConversations =>
      api_request api token "/conversations/" (Init None None None)
  | CreateConversation title mode =>
      api_request api token "/conversations/"
        (Init (Some "POST") None
              (Some (JSON_stringify
                       (JObject [("title", JString (default "New Chat" title));
                                 ("mode", JString (default "study_buddy" mode))]))))
  | GetConversation id =>
      api_request api token (conversation_path id) (Init None None None)
  | UpdateConversation id data =>
      api_request api token (conversation_path id)
        (Init (Some "PUT") None (Some (JSON_stringify data)))
  | DeleteConversation id =>
      api_request api token (conversation_path id) (Init (Some "DELETE") None None)
  end.

(** A line of the stream that triggers no callback by its form: no
    event marker, a remainder that is not JSON, or JSON that is not an
    object with one of the three types. *)
Definition silent_line (l : string) : Prop :=
  JsString.startsWith "data: " l = false \/
  malformed_line l \/
  (exists d, data_line l d /\
     match d with
     | JObject members =>
         is_string (lookup_member "type" members) "chunk" = false /\
         is_string (lookup_member "type" members) "done" = false /\
         is_string (lookup_member "type" members) "error" = false
     | _ => True
     end).

(** Unfolding the operations of the monad. *)
Ltac run_ops :=
  unfold mbind, M_bind, bind, catch, lift, ret, throw, invoke,
    typeof_window_defined, read_API_URL, fetch, set_location_href,
    localStorage_getItem, localStorage_setItem, localStorage_setItem_value,
    localStorage_removeItem in *.

(** * Lemmas *)

(** ** The reader never runs out of fuel *)

Module JsonParseFacts.

Import JsString JsonParse.

#[local] Open Scope nat_scope.

Lemma skip_ws_length s : String.length (skip_ws s) <= String.length s.
Proof.
  induction s as [|c s IH]; simpl; [lia|].
  destruct (is_ws c); simpl; lia.
Qed.

Lemma take_digits_length s :
  String.length (snd (take_digits s)) <= String.length s.
Proof.
  induction s as [|c s IH]; simpl; [lia|].
  destruct (digit_of c); simpl; [|lia].
  destruct (take_digits s); simpl in *. lia.
Qed.

Lemma expect_length p s rest :
  expect p s = Some rest -> String.length rest <= String.length s.
Proof.
  revert s. induction p as [|a p IH]; intros s; simpl.
  - intros [= <-]. lia.
  - destruct s as [|b s]; [done|].
    destruct (is_char a b); [|done]. intros H%IH. simpl. lia.
Qed.

Lemma parse_chars_length_bounded n :
  forall s, String.length s <= n ->
  forall us rest, parse_chars s = Some (us, rest) ->
                  String.length rest < String.length s.
Proof.
  induction n as [|n IH]; intros s Hn us rest.
  - destruct s; [done|simpl in Hn; lia].
  - destruct s as [|c s]; [done|]. simpl in *.
    repeat case_match; try done; intros [= <- <-]; simplify_eq; simpl in *.
    all: try lia.
    all: match goal with
         | H : parse_chars ?t = Some (_, ?r) |- _ =>
             apply IH in H; simpl in *; lia
         end.
Qed.

Lemma parse_chars_length s us rest :
  parse_chars s = Some (us, rest) -> String.length rest < String.length s.
Proof. by apply (parse_chars_length_bounded (String.length s)). Qed.

Lemma parse_string_length s k rest :
  parse_string s = Some (k, rest) -> String.length rest < String.length s.
Proof.
  unfold parse_string. destruct (parse_chars s) as [[us r]|] eqn:H; [|done].
  intros [= <- <-]. by apply parse_chars_length in H.
Qed.

(** Splitting off a digit run, with the bound on what is left. *)
Ltac split_digits t :=
  let L := fresh "L" in
  pose proof (take_digits_length t) as L;
  destruct (take_digits t) as [? ?]; cbn [snd] in L.

Lemma parse_int_length s ds rest :
  parse_int s = Some (ds, rest) -> String.length rest < String.length s.
Proof.
  unfold parse_int. destruct s as [|c s]; [done|].
  destruct (digit_of c) as [d|]; [|done].
  split_digits s.
  destruct d; intros [= <- <-]; cbn [String.length]; lia.
Qed.

Lemma parse_frac_length s ds rest :
  parse_frac s = Some (ds, rest) -> String.length rest <= String.length s.
Proof.
  unfold parse_frac. destruct s as [|c s]; [by intros [= <- <-]|].
  destruct (is_char c "."); [|by intros [= <- <-]].
  split_digits s.
  destruct l; [done|]. intros [= <- <-]. cbn [String.length]. lia.
Qed.

Lemma parse_exp_length s e rest :
  parse_exp s = Some (e, rest) -> String.length rest <= String.length s.
Proof.
  unfold parse_exp. destruct s as [|c s]; [by intros [= <- <-]|].
  destruct (is_char c "e" || is_char c "E"); [|by intros [= <- <-]].
  destruct s as [|d t].
  - by simpl.
  - destruct (is_char d "-"); [|destruct (is_char d "+")].
    + split_digits t. destruct l; [done|].
      intros [= <- <-]. cbn [String.length]. lia.
    + split_digits t. destruct l; [done|].
      intros [= <- <-]. cbn [String.length]. lia.
    + split_digits (String d t). destruct l; [done|].
      intros [= <- <-]. cbn [String.length] in *. lia.
Qed.

Lemma parse_number_length s n rest :
  parse_number s = Some (n, rest) -> String.length rest < String.length s.
Proof.
  unfold parse_number.
  set (signed := match s with
                 | String c t => if is_char c "-" then (true, t) else (false, s)
                 | EmptyString => (false, s)
                 end).
  assert (Hs : String.length (snd signed) <= String.length s).
  { subst signed. destruct s as [|c t]; [done|].
    destruct (is_char c "-"); cbn [snd String.length]; lia. }
  destruct signed as [neg s1]. cbn [snd] in Hs.
  destruct (parse_int s1) as [[ip s2]|] eqn:Hi; [|done].
  destruct (parse_frac s2) as [[fp s3]|] eqn:Hf; [|done].
  destruct (parse_exp s3) as [[e s4]|] eqn:He; [|done].
  intros [= <- <-].
  apply parse_int_length in Hi. apply parse_frac_length in Hf.
  apply parse_exp_length in He. lia.
Qed.

Lemma skip_ws_cons s c s' :
  skip_ws s = String c s' -> String.length s' < String.length s.
Proof.
  intros H. pose proof (skip_ws_length s) as L. rewrite H in L.
  cbn [String.length] in L. lia.
Qed.

(** From the equations of a successful parse to the lengths of the
    texts that are left. *)
Ltac lengths :=
  repeat match goal with
    | H : skip_ws _ = String _ _ |- _ => apply skip_ws_cons in H
    | H : parse_string _ = Some _ |- _ => apply parse_string_length in H
    | H : parse_number _ = Some _ |- _ => apply parse_number_length in H
    | H : expect _ _ = Some _ |- _ => apply expect_length in H
    | IH : forall s v rest, parse_value ?f s = Some (v, rest) -> _,
      H : parse_value ?f _ = Some _ |- _ => apply IH in H
    | IH : forall acc s v rest, parse_elements ?f acc s = Some (v, rest) -> _,
      H : parse_elements ?f _ _ = Some _ |- _ => apply IH in H
    | IH : forall acc s v rest, parse_members ?f acc s = Some (v, rest) -> _,
      H : parse_members ?f _ _ = Some _ |- _ => apply IH in H
    end;
  cbn [String.length] in *.

(** A successful parse consumes at least one character. *)
Lemma parse_length f :
  (forall s v rest, parse_value f s = Some (v, rest) ->
                    String.length rest < String.length s) /\
  (forall acc s v rest, parse_elements f acc s = Some (v, rest) ->
                        String.length rest < String.length s) /\
  (forall acc s v rest, parse_members f acc s = Some (v, rest) ->
                        String.length rest < String.length s).
Proof.
  induction f as [|f (IHv & IHe & IHm)]; [by repeat split|].
  split; [|split].
  - intros s v rest. cbn [parse_value]. unfold option_map.
    repeat case_match; try done; intros ?; simplify_eq; lengths; lia.
  - intros acc s v rest. cbn [parse_elements].
    repeat case_match; try done; intros ?; simplify_eq; lengths; lia.
  - intros acc s v rest. cbn [parse_members].
    repeat case_match; try done; intros ?; simplify_eq; lengths; lia.
Qed.

Lemma parse_value_length f s v rest :
  parse_value f s = Some (v, rest) -> String.length rest < String.length s.
Proof. apply parse_length. Qed.

(** With two units of fuel per character, one more changes nothing. *)
Lemma parse_fuel_step f :
  (forall s, 2 * String.length s + 1 <= f ->
             parse_value (S f) s = parse_value f s) /\
  (forall acc s, 2 * String.length s + 2 <= f ->
                 parse_elements (S f) acc s = parse_elements f acc s) /\
  (forall acc s, 2 * String.length s + 2 <= f ->
                 parse_members (S f) acc s = parse_members f acc s).
Proof.
  induction f as [|f (IHv & IHe & IHm)]; [repeat split; intros; lia|].
  split; [|split].
  - intros s Hf. cbn [parse_value].
    destruct (skip_ws s) as [|c s1] eqn:Hs; [done|].
    apply skip_ws_cons in Hs.
    destruct (is_char c "{").
    { destruct (skip_ws s1) as [|d s2]; [done|].
      destruct (is_char d "}"); [done|]. apply IHm. lia. }
    destruct (is_char c "[").
    { destruct (skip_ws s1) as [|d s2]; [done|].
      destruct (is_char d "]"); [done|]. apply IHe. lia. }
    done.
  - intros acc s Hf. cbn [parse_elements].
    rewrite IHv by lia.
    destruct (parse_value f s) as [[v rest]|] eqn:Hv; [|done].
    apply parse_value_length in Hv.
    destruct (skip_ws rest) as [|c rest'] eqn:Hs; [done|].
    apply skip_ws_cons in Hs.
    destruct (is_char c ","); [|done]. apply IHe. lia.
  - intros acc s Hf. cbn [parse_members].
    destruct (skip_ws s) as [|q s1] eqn:Hs1; [done|].
    apply skip_ws_cons in Hs1.
    destruct (is_char q dquote); [|done].
    destruct (parse_string s1) as [[k s2]|] eqn:Hk; [|done].
    apply parse_string_length in Hk.
    destruct (skip_ws s2) as [|c s3] eqn:Hs3; [done|].
    apply skip_ws_cons in Hs3.
    destruct (is_char c ":"); [|done].
    rewrite IHv by lia.
    destruct (parse_value f s3) as [[v s4]|] eqn:Hv; [|done].
    apply parse_value_length in Hv.
    destruct (skip_ws s4) as [|d s5] eqn:Hs5; [done|].
    apply skip_ws_cons in Hs5.
    destruct (is_char d ","); [|done]. apply IHm. lia.
Qed.

(** The reader gives the same result with any larger fuel: [fuel_for]
    never runs out. *)
Lemma parse_value_fuel text extra :
  parse_value (fuel_for text + extra) text = parse_value (fuel_for text) text.
Proof.
  induction extra as [|extra IH]; [by rewrite Nat.add_0_r|].
  rewrite Nat.add_succ_r, <- IH.
  apply parse_fuel_step. unfold fuel_for. lia.
Qed.

End JsonParseFacts.

(** The platform functions on sample texts. *)

Example parse_chunk_event :
  JSON_parse (wire "{'type':'chunk','content':'a'}") =
  Some (JObject [("type", JString "chunk"); ("content", JString "a")]).
Proof. reflexivity. Qed.

Example parse_spaced_and_nested :
  JSON_parse (wire " { 'sources' : [ { 'filename' : 'a.pdf' } , null ] , 'n' : -12.50e1 } ") =
  Some (JObject [("sources", JArray [JObject [("filename", JString "a.pdf")]; JNull]);
                 ("n", JNumber (Number true 1250 (-1)))]).
Proof. reflexivity. Qed.

Example parse_rejects_malformed :
  JSON_parse (wire "{'type':'chunk',") = None /\
  JSON_parse (wire "{'a':1,}") = None /\
  JSON_parse "[1,]" = None /\
  JSON_parse "01" = None /\
  JSON_parse (wire "{'a':1} x") = None /\
  JSON_parse EmptyString = None.
Proof. repeat split; reflexivity. Qed.

Example stringify_payload :
  JSON_stringify
    (chat_payload "hi" "study_buddy" one "cse"
       [Build_ChatMessage user "q" (Some [Build_Source "a.pdf" "notes" None])]) =
  wire "{'message':'hi','mode':'study_buddy','year':1,'stream':'cse','conversation_history':[{'role':'user','content':'q'}]}".
Proof. reflexivity. Qed.

Example split_keeps_fragment :
  JsString.pop (JsString.split_lines ("ab" +:+ nl +:+ nl +:+ "cd")) =
  (["ab"; EmptyString], Some "cd").
Proof. reflexivity. Qed.

Example falsy_values :
  truthy (Some (JNumber (Number true 0 0))) = false /\
  truthy (Some (JNumber (Number false 1 (-400)))) = false /\
  truthy (Some (JNumber (Number false 5 (-324)))) = true /\
  truthy (Some (JString EmptyString)) = false /\
  truthy (Some (JArray [])) = true.
Proof. repeat split; vm_compute; reflexivity. Qed.

Lemma emit_nil w : emit [] w = w.
Proof. destruct w; unfold emit, with_calls; simpl. by rewrite app_nil_r. Qed.

Lemma emit_emit a b w : emit b (emit a w) = emit (a ++ b) w.
Proof. unfold emit, with_calls; simpl. by rewrite app_assoc. Qed.

Lemma split_lines_cut s :
  JsString.split_lines s = fst (cut s) ++ [snd (cut s)].
Proof.
  induction s as [|c s IH]; simpl; [done|].
  destruct (cut s) as [ls r]; simpl in *.
  destruct (JsString.is_char c JsString.newline); simpl.
  - by rewrite IH.
  - rewrite IH. by destruct ls.
Qed.

Lemma pop_snoc ls r : JsString.pop (ls ++ [r]) = (ls, Some r).
Proof.
  induction ls as [|l ls IH]; simpl; [done|].
  rewrite IH. by destruct ls.
Qed.

Lemma pop_split_lines s :
  JsString.pop (JsString.split_lines s) = (fst (cut s), Some (snd (cut s))).
Proof. by rewrite split_lines_cut, pop_snoc. Qed.

Lemma or_default_empty r : JsString.or_default (Some r) EmptyString = r.
Proof. by destruct r. Qed.

Lemma append_cons c (a b : string) : String c a +:+ b = String c (a +:+ b).
Proof. reflexivity. Qed.

Lemma append_assoc (a b c : string) : (a +:+ b) +:+ c = a +:+ (b +:+ c).
Proof.
  induction a as [|x a IH]; [done|].
  by rewrite !append_cons, IH.
Qed.

Lemma append_empty_r (a : string) : a +:+ EmptyString = a.
Proof.
  induction a as [|x a IH]; [done|].
  by rewrite append_cons, IH.
Qed.

(** Cutting a text that arrives in two parts: the lines of the first
    part, then the lines of its fragment followed by the second part. *)
Lemma cut_app a b :
  cut (a +:+ b) =
  (fst (cut a) ++ fst (cut (snd (cut a) +:+ b)), snd (cut (snd (cut a) +:+ b))).
Proof.
  induction a as [|c a IH].
  - simpl. by destruct (cut b).
  - simpl. rewrite IH. destruct (cut a) as [la ra]; simpl.
    destruct (JsString.is_char c JsString.newline) eqn:Hc; simpl; [done|].
    destruct la as [|l la]; simpl; [|done].
    rewrite Hc. by destruct (cut (ra +:+ b)) as [[|l2 ls2] r2].
Qed.

(** Reading the token never changes the world. *)
Lemma getToken_world w : snd (getToken w) = w.
Proof.
  unfold getToken. run_ops.
  destruct (has_window w); simpl; [|done].
  by destruct (localStorage w).
Qed.

Lemma getToken_eq w : getToken w = (fst (getToken w), w).
Proof. rewrite <- (getToken_world w) at 3. by destruct (getToken w). Qed.

(** A line makes the call [line_call] gives for it and nothing else;
    what the callback throws is caught. *)
Lemma handle_line_run h line w :
  handle_line h line w = (Return (), emit (option_list (line_call line)) w).
Proof.
  unfold handle_line, line_call.
  destruct (JsString.startsWith "data: " line); [|by rewrite emit_nil].
  run_ops.
  destruct (JSON_parse (JsString.slice 6 line)) as [[]|]; simpl;
    try by rewrite emit_nil.
  repeat (match goal with
          | |- context [if is_string ?a ?b then _ else _] =>
              destruct (is_string a b); simpl
          end);
    try by rewrite emit_nil.
  all: by match goal with
          | |- context [match ?x with Some _ => _ | None => _ end] => destruct x
          end.
Qed.

Lemma for_each_handle_line h ls w :
  for_each (handle_line h) ls w = (Return (), emit (omap line_call ls) w).
Proof.
  revert w. induction ls as [|l ls IH]; intros w; simpl.
  - by rewrite emit_nil.
  - run_ops. rewrite handle_line_run, IH, emit_emit.
    by destruct (line_call l).
Qed.

(** The fragment after the last newline holds no complete line. *)
Lemma cut_fragment s : complete_lines (snd (cut s)) = [].
Proof.
  unfold complete_lines.
  induction s as [|c s IH]; simpl; [done|].
  destruct (cut s) as [ls r]; simpl in *.
  destruct (JsString.is_char c JsString.newline) eqn:Hc; simpl; [done|].
  destruct ls; simpl; [|done].
  destruct (cut r) as [ls' r']; simpl in *. subst ls'.
  by rewrite Hc.
Qed.

(** The loop makes the calls of the complete lines of the buffer
    followed by all the text read, whatever the pieces the text comes
    in, and ends the way the last read does. *)
Lemma read_loop_run h b buffer w :
  complete_lines buffer = [] ->
  read_loop h b buffer w =
  (stream_end b, emit (omap line_call (complete_lines (buffer +:+ stream_text b))) w).
Proof.
  revert buffer w. induction b as [|text rest IH|e]; intros buffer w Hbuf; simpl.
  - by rewrite append_empty_r, Hbuf, emit_nil.
  - rewrite pop_split_lines, or_default_empty. run_ops.
    rewrite for_each_handle_line, IH by apply cut_fragment.
    rewrite emit_emit, <- omap_app, <- append_assoc.
    unfold complete_lines at 2.
    by rewrite (cut_app (buffer +:+ text) (stream_text rest)).
  - by rewrite append_empty_r, Hbuf, emit_nil.
Qed.

(** [consume] on a successful response with a body. *)
Lemma consume_stream h res b w :
  ok res = true -> body res = Some b ->
  consume h res w =
  (stream_end b, emit (omap line_call (complete_lines (stream_text b))) w).
Proof.
  intros Hok Hb. unfold consume. rewrite Hok, Hb. simpl.
  by rewrite read_loop_run.
Qed.

(** [sendMessageStream] up to the response. *)
Lemma sendMessageStream_fetch net message mode year stream hist h w token :
  fst (getToken w) = Return token ->
  sendMessageStream net message mode year stream hist h w =
  let r := stream_request (API_URL w) token message mode year stream hist in
  let w' := with_requests (requests w ++ [r]) w in
  match net r with
  | Responds res => consume h res w'
  | Rejects e => (Throw e, w')
  end.
Proof.
  intros Htok. unfold sendMessageStream. run_ops.
  rewrite (getToken_eq w), Htok. simpl.
  by destruct (net _).
Qed.

(** [apiFetch] up to the response. *)
Lemma apiFetch_fetch net path options w token :
  fst (getToken w) = Return token ->
  apiFetch net path options w =
  let r := api_request (API_URL w) token path options in
  let w' := with_requests (requests w ++ [r]) w in
  match net r with
  | Responds res => settle res w'
  | Rejects e => (Throw e, w')
  end.
Proof.
  intros Htok. unfold apiFetch. run_ops.
  rewrite (getToken_eq w), Htok. simpl.
  by destruct (net _).
Qed.

Lemma apiFetch_no_token net path options w e :
  fst (getToken w) = Throw e -> apiFetch net path options w = (Throw e, w).
Proof.
  intros Htok. unfold apiFetch. run_ops.
  by rewrite (getToken_eq w), Htok.
Qed.

Lemma sendMessageStream_no_token net message mode year stream hist h w e :
  fst (getToken w) = Throw e ->
  sendMessageStream net message mode year stream hist h w = (Throw e, w).
Proof.
  intros Htok. unfold sendMessageStream. run_ops.
  by rewrite (getToken_eq w), Htok.
Qed.

(** After the response no further request is made. *)
Lemma settle_requests res w : requests (snd (settle res w)) = requests w.
Proof.
  unfold settle, clearToken. run_ops.
  destruct (status res =? 401).
  - destruct w as [u win st nav reqs cs]; simpl.
    destruct st; simpl; [|done]. by destruct win.
  - destruct (negb (ok res)); [|done].
    destruct (res_json res) as [v|e]; simpl; [|done].
    destruct (get_prop v "detail") as [d|e]; simpl; [|done].
    by destruct (new_Error _).
Qed.

Lemma consume_requests h res w : requests (snd (consume h res w)) = requests w.
Proof.
  unfold consume. run_ops.
  destruct (negb (ok res)).
  - destruct (res_json res) as [v|e]; simpl.
    + destruct (get_prop v "detail"); simpl; [|done]. by destruct (h _).
    + by destruct (h _).
  - destruct (body res) as [b|].
    + by rewrite read_loop_run.
    + by destruct (h _).
Qed.

Lemma stream_text_of reads : stream_text (stream_of reads) = concat_text reads.
Proof. induction reads as [|r reads IH]; simpl; congruence. Qed.

Lemma stream_end_of reads : stream_end (stream_of reads) = Return ().
Proof. by induction reads. Qed.

(** A text without newline is one fragment. *)
Lemma cut_fragment_only s :
  JsString.no_newline s = true -> cut s = ([], s).
Proof.
  induction s as [|c s IH]; simpl; [done|].
  intros [Hc Hs]%andb_prop. rewrite (IH Hs).
  by apply negb_true_iff in Hc as ->.
Qed.

Lemma cut_line l rest :
  JsString.no_newline l = true ->
  cut (l +:+ String JsString.newline rest) = (l :: fst (cut rest), snd (cut rest)).
Proof.
  induction l as [|c l IH]; simpl.
  - intros _. by destruct (cut rest).
  - intros [Hc Hl]%andb_prop. rewrite (IH Hl).
    by apply negb_true_iff in Hc as ->.
Qed.

Lemma cut_unlines ls tail :
  newline_free ls -> JsString.no_newline tail = true ->
  cut (unlines ls +:+ tail) = (ls, tail).
Proof.
  intros Hls Htail. induction Hls as [|l ls Hl Hls IH]; simpl.
  - by apply cut_fragment_only.
  - rewrite append_assoc. simpl. rewrite cut_line by done. by rewrite IH.
Qed.

Lemma event_line_call l c : event_line l c -> line_call l = Some c.
Proof.
  unfold line_call.
  destruct 1 as [l d c [Hm Hd] Hty Hc | l d s [Hm Hd] Hty Hs | l d c [Hm Hd] Hty Hc];
    rewrite Hm, Hd; destruct d; try discriminate; simpl in *;
    injection Hty as ->; simpl; congruence.
Qed.

Lemma events_calls ls cs : Forall2 event_line ls cs -> omap line_call ls = cs.
Proof.
  induction 1 as [|l c ls cs Hl _ IH]; csimpl; [done|].
  by rewrite (event_line_call l c Hl), IH.
Qed.

Lemma malformed_line_call l : malformed_line l -> line_call l = None.
Proof. intros [Hm Hd]. unfold line_call. by rewrite Hm, Hd. Qed.

(** The calls of a stream request that is answered with a successful
    response with a body. *)
Lemma stream_calls net message mode year stream hist h w token res b :
  fst (getToken w) = Return token ->
  net (stream_request (API_URL w) token message mode year stream hist) = Responds res ->
  ok res = true -> body res = Some b ->
  sendMessageStream net message mode year stream hist h w =
  (stream_end b,
   emit (omap line_call (complete_lines (stream_text b)))
        (with_requests
           (requests w ++ [stream_request (API_URL w) token message mode year stream hist])
           w)).
Proof.
  intros Htok Hnet Hok Hb.
  rewrite (sendMessageStream_fetch _ _ _ _ _ _ _ _ token Htok). simpl.
  rewrite Hnet. by apply consume_stream.
Qed.

Lemma three_events_calls :
  omap line_call (complete_lines three_events) =
  [OnChunk (Some (JString "a")); OnChunk (Some (JString "b")); OnDone (JArray [])].
Proof. vm_compute. reflexivity. Qed.

(** * The streaming consumer: order and completeness of the callbacks *)

(** C2: when the response body delivers, in whatever pieces, the three
    newline-terminated lines chunk "a", chunk "b", done with no sources,
    the call returns normally and the callbacks invoked are onChunk("a"),
    onChunk("b") and then a single onDone([]); onError is not called. *)
Theorem stream_chunks_then_done net message mode year stream hist h w token res reads :
  fst (getToken w) = Return token ->
  net (stream_request (API_URL w) token message mode year stream hist) = Responds res ->
  ok res = true ->
  body res = Some (stream_of reads) ->
  concat_text reads = three_events ->
  fst (sendMessageStream net message mode year stream hist h w) = Return () /\
  calls (snd (sendMessageStream net message mode year stream hist h w)) =
    calls w ++ [OnChunk (Some (JString "a")); OnChunk (Some (JString "b"));
                OnDone (JArray [])].
Proof.
  intros Htok Hnet Hok Hb Htext.
  rewrite (stream_calls _ _ _ _ _ _ _ _ _ _ _ Htok Hnet Hok Hb).
  by rewrite stream_text_of, stream_end_of, Htext, three_events_calls.
Qed.

Lemma stream_chunks_then_done_witness :
  fst (sendMessageStream
         (respond 200 [wire "data: {'type':'chunk','content':'a'}" +:+ nl +:+ "data: ";
                       wire "{'type':'chunk','content':'b'}" +:+ nl;
                       wire "data: {'type':'done','sources':[]}" +:+ nl])
         "hello" "study_buddy" one "cse" [] quiet (browser ∅)) = Return () /\
  calls (snd (sendMessageStream
         (respond 200 [wire "data: {'type':'chunk','content':'a'}" +:+ nl +:+ "data: ";
                       wire "{'type':'chunk','content':'b'}" +:+ nl;
                       wire "data: {'type':'done','sources':[]}" +:+ nl])
         "hello" "study_buddy" one "cse" [] quiet (browser ∅))) =
    [OnChunk (Some (JString "a")); OnChunk (Some (JString "b")); OnDone (JArray [])].
Proof.
  eapply (stream_chunks_then_done _ _ _ _ _ _ _ (browser ∅) None);
    reflexivity.
Defined.

(** C8: when a line with the event marker whose remainder is not JSON
    stands between two chunk lines, anywhere in the stream and however
    the stream is cut into reads, both chunks are delivered in order with
    no call between them, and the lines after them are processed as
    usual. *)
Theorem malformed_line_skipped
    net message mode year stream hist h w token res b
    before l1 bad l2 after tail c1 c2 :
  fst (getToken w) = Return token ->
  net (stream_request (API_URL w) token message mode year stream hist) = Responds res ->
  ok res = true ->
  body res = Some b ->
  stream_text b = unlines (before ++ [l1; bad; l2] ++ after) +:+ tail ->
  newline_free (before ++ [l1; bad; l2] ++ after) ->
  JsString.no_newline tail = true ->
  event_line l1 (OnChunk c1) ->
  malformed_line bad ->
  event_line l2 (OnChunk c2) ->
  calls (snd (sendMessageStream net message mode year stream hist h w)) =
    calls w ++ omap line_call before ++ [OnChunk c1; OnChunk c2]
            ++ omap line_call after.
Proof.
  intros Htok Hnet Hok Hb Htext Hls Htail H1 Hbad H2.
  rewrite (stream_calls _ _ _ _ _ _ _ _ _ _ _ Htok Hnet Hok Hb).
  unfold complete_lines. rewrite Htext, cut_unlines by done. simpl.
  do 2 f_equal. rewrite !omap_app. f_equal. csimpl.
  by rewrite (event_line_call _ _ H1), (malformed_line_call _ Hbad),
    (event_line_call _ _ H2).
Qed.

Lemma malformed_line_skipped_witness :
  calls (snd (sendMessageStream
                (respond 200 [wire "data: {'type':'chunk','content':'Hel";
                              wire "lo'}" +:+ nl +:+ wire "data: {'type':'chunk'," +:+ nl;
                              wire "data: {'type':'chunk','content':' world'}" +:+ nl
                                +:+ wire "data: {'type':'done'}" +:+ nl +:+ "data"])
                "hello" "study_buddy" one "cse" [] quiet (browser ∅))) =
  [OnChunk (Some (JString "Hello")); OnChunk (Some (JString " world"));
   OnDone (JArray [])].
Proof.
  eapply (malformed_line_skipped _ _ _ _ _ _ _ (browser ∅) None _ _
            [] (wire "data: {'type':'chunk','content':'Hello'}")
            (wire "data: {'type':'chunk',")
            (wire "data: {'type':'chunk','content':' world'}")
            [wire "data: {'type':'done'}"] "data").
  - reflexivity.
  - reflexivity.
  - reflexivity.
  - reflexivity.
  - reflexivity.
  - repeat constructor.
  - reflexivity.
  - eapply chunk_event; [split|..]; reflexivity.
  - split; reflexivity.
  - eapply chunk_event; [split|..]; reflexivity.
Defined.

(** C10: the loop does not stop at a terminal event.  Every
    newline-terminated line of the stream contributes its own call,
    whatever stands before it, and the call of an event line is the
    callback of its event: of a [chunk] line onChunk, of a [done] line
    onDone, of an [error] line onError.  So two [done] lines give two
    onDone calls, and a line after a [done] or an [error] line still
    gets its call. *)
Theorem every_event_line_dispatched
    net message mode year stream hist h w token res b ls tail :
  fst (getToken w) = Return token ->
  net (stream_request (API_URL w) token message mode year stream hist) = Responds res ->
  ok res = true ->
  body res = Some b ->
  stream_text b = unlines ls +:+ tail ->
  newline_free ls ->
  JsString.no_newline tail = true ->
  calls (snd (sendMessageStream net message mode year stream hist h w)) =
    calls w ++ omap line_call ls /\
  (forall l c, event_line l c -> line_call l = Some c) /\
  (forall cs, Forall2 event_line ls cs ->
     calls (snd (sendMessageStream net message mode year stream hist h w)) =
       calls w ++ cs).
Proof.
  intros Htok Hnet Hok Hb Htext Hls Htail.
  rewrite (stream_calls _ _ _ _ _ _ _ _ _ _ _ Htok Hnet Hok Hb).
  unfold complete_lines. rewrite Htext, cut_unlines by done. simpl.
  split; [done|]. split; [apply event_line_call|].
  intros cs Hev. by rewrite (events_calls _ _ Hev).
Qed.

Lemma every_event_line_dispatched_witness :
  calls (snd (sendMessageStream
                (respond 200 [wire "data: {'type':'done','sources':[]}" +:+ nl;
                              wire "data: {'type':'chunk','content':'late'}" +:+ nl
                                +:+ wire "data: {'type':'error','content':'boom'}" +:+ nl;
                              wire "data: {'type':'done'}" +:+ nl])
                "hello" "study_buddy" one "cse" [] quiet (browser ∅))) =
  [OnDone (JArray []); OnChunk (Some (JString "late"));
   OnError (Some (JString "boom")); OnDone (JArray [])].
Proof.
  refine (proj2 (proj2 (every_event_line_dispatched
            (respond 200 [wire "data: {'type':'done','sources':[]}" +:+ nl;
                          wire "data: {'type':'chunk','content':'late'}" +:+ nl
                            +:+ wire "data: {'type':'error','content':'boom'}" +:+ nl;
                          wire "data: {'type':'done'}" +:+ nl])
            "hello" "study_buddy" one "cse" [] quiet (browser ∅) None
            (Response 200 (Some (stream_of _))) (stream_of _)
            [wire "data: {'type':'done','sources':[]}";
             wire "data: {'type':'chunk','content':'late'}";
             wire "data: {'type':'error','content':'boom'}";
             wire "data: {'type':'done'}"] EmptyString
            eq_refl eq_refl eq_refl eq_refl eq_refl _ eq_refl)) _ _).
  - repeat constructor.
  - constructor; [eapply (done_event _ _ (Some (JArray []))); [split|..]; reflexivity|].
    constructor; [eapply chunk_event; [split|..]; reflexivity|].
    constructor; [eapply error_event; [split|..]; reflexivity|].
    constructor; [eapply (done_event _ _ None); [split|..]; reflexivity|].
    constructor.
Defined.

(** * The streaming consumer: failures *)

(** [consume] on a response without success status. *)
Lemma consume_not_ok h res w :
  ok res = false ->
  consume h res w =
  match res_json res with
  | Return v =>
      match get_prop v "detail" with
      | Return d => invoke h (OnError (Some (js_or d (JString "Stream failed")))) w
      | Throw e => (Throw e, w)
      end
  | Throw _ => invoke h (OnError (Some (JString "Stream failed"))) w
  end.
Proof.
  intros Hok. unfold consume. rewrite Hok. simpl. run_ops.
  destruct (res_json res) as [v|e]; simpl; [|done].
  by destruct (get_prop v "detail").
Qed.

Lemma consume_no_body h res w :
  ok res = true -> body res = None ->
  consume h res w = invoke h (OnError (Some (JString "No response body"))) w.
Proof. intros Hok Hb. unfold consume. by rewrite Hok, Hb. Qed.

Lemma invoke_calls h c w : calls (snd (invoke h c w)) = calls w ++ [c].
Proof. unfold invoke. by destruct (h c). Qed.

Lemma invoke_quiet h c w :
  (forall c', h c' = None) -> fst (invoke h c w) = Return ().
Proof. intros Hq. unfold invoke. by rewrite Hq. Qed.

(** C9 as stated fails: for a failed request whose body is the JSON
    object with the empty string as detail, onError gets the fixed
    message and not the detail of the body. *)
Lemma stream_init_error_counterexample :
  ~ reports_detail
      (Response 500 (Some (stream_of [wire "{'detail':''}"])))
      (calls (snd (sendMessageStream (respond 500 [wire "{'detail':''}"])
                     "hello" "study_buddy" one "cse" [] quiet (browser ∅)))).
Proof.
  unfold reports_detail.
  change (res_json (Response 500 (Some (stream_of [wire "{'detail':''}"]))))
    with (Return (JObject [("detail", JString EmptyString)])).
  intros [d [Hd Hcalls]]. vm_compute in Hd, Hcalls. congruence.
Qed.

(** A failed request whose body is the JSON null: reading its detail
    raises, and no callback is called. *)
Example stream_init_error_null_body :
  sendMessageStream (respond 500 ["null"]) "hello" "study_buddy" one "cse" []
                    quiet (browser ∅) =
  (Throw TypeError,
   with_requests [stream_request "http://localhost:8000" None "hello"
                                 "study_buddy" one "cse" []] (browser ∅)).
Proof. reflexivity. Qed.

(** C9, amended: when the response of the stream request has no success
    status, onError is called exactly once and nothing else is called:
    with the detail of the body when the body parses to a value other
    than null and its detail is truthy, and with "Stream failed" when
    the detail is missing or falsy or the body cannot be read as JSON.
    When the response is successful but has no body, onError is called
    exactly once, with "No response body", and nothing else is called. *)
Theorem stream_init_errors net message mode year stream hist h w token res :
  fst (getToken w) = Return token ->
  net (stream_request (API_URL w) token message mode year stream hist) = Responds res ->
  (ok res = false ->
   forall v d, res_json res = Return v -> get_prop v "detail" = Return d ->
     calls (snd (sendMessageStream net message mode year stream hist h w)) =
       calls w ++ [OnError (Some (js_or d (JString "Stream failed")))]) /\
  (ok res = false ->
   forall e, res_json res = Throw e ->
     calls (snd (sendMessageStream net message mode year stream hist h w)) =
       calls w ++ [OnError (Some (JString "Stream failed"))]) /\
  (ok res = true -> body res = None ->
     calls (snd (sendMessageStream net message mode year stream hist h w)) =
       calls w ++ [OnError (Some (JString "No response body"))]).
Proof.
  intros Htok Hnet.
  rewrite (sendMessageStream_fetch _ _ _ _ _ _ _ _ token Htok). simpl.
  rewrite Hnet. repeat split.
  - intros Hok v d Hv Hd. rewrite consume_not_ok, Hv, Hd by done.
    by rewrite invoke_calls.
  - intros Hok e He. rewrite consume_not_ok, He by done.
    by rewrite invoke_calls.
  - intros Hok Hb. rewrite consume_no_body by done.
    by rewrite invoke_calls.
Qed.

Lemma stream_init_errors_witness :
  calls (snd (sendMessageStream (respond 400 [wire "{'detail':'bad mode'}"])
                "hello" "no_such_mode" one "cse" [] quiet (browser ∅))) =
  [OnError (Some (JString "bad mode"))].
Proof.
  exact (proj1 (stream_init_errors
                  (respond 400 [wire "{'detail':'bad mode'}"])
                  "hello" "no_such_mode" one "cse" [] quiet (browser ∅) None
                  (Response 400 (Some (stream_of [wire "{'detail':'bad mode'}"])))
                  eq_refl eq_refl)
               eq_refl
               (JObject [("detail", JString "bad mode")])
               (Some (JString "bad mode")) eq_refl eq_refl).
Defined.

(** C4 as stated fails: when the network rejects the request, the call
    rejects with the network's error and onError is not called. *)
Lemma stream_rejects_counterexample :
  fst (sendMessageStream offline "hello" "study_buddy" one "cse" [] quiet
         (browser ∅)) = Throw (Failure "Failed to fetch") /\
  calls (snd (sendMessageStream offline "hello" "study_buddy" one "cse" [] quiet
                (browser ∅))) = [].
Proof. split; reflexivity. Qed.

Lemma invoke_reported h c w : reported_once h c w (invoke h c w).
Proof. unfold reported_once, invoke. by destruct (h c). Qed.

(** C4, amended.  What [sendMessageStream] reports through onError, once
    it has read the token, with one call and no other: a response
    without success status, with the detail of its body when the body is
    JSON other than null and the detail is truthy, and with "Stream
    failed" when the detail is
    missing or falsy or the body cannot be read or parsed (a rejected
    read of that body included); a successful response without body,
    with "No response body".  The call then returns normally, unless
    that onError call throws.  Each error event of a stream that is read
    to its end is reported by onError with its content, among the calls
    of the other lines, and the call returns normally.  Failures of the
    transport are not reported through onError: when fetch rejects, the
    call rejects with the same error and no callback is called; when a
    read of the body of a successful response rejects, the call rejects
    with the same error after the calls of the lines read so far, and no
    call is made for the failure. *)
Theorem stream_errors_and_rejections net message mode year stream hist h w token :
  fst (getToken w) = Return token ->
  let r := stream_request (API_URL w) token message mode year stream hist in
  let run := sendMessageStream net message mode year stream hist h w in
  (forall e, net r = Rejects e ->
     fst run = Throw e /\ calls (snd run) = calls w) /\
  (forall res b e,
     net r = Responds res -> ok res = true -> body res = Some b ->
     stream_end b = Throw e ->
     fst run = Throw e /\
     calls (snd run) = calls w ++ omap line_call (complete_lines (stream_text b))) /\
  (forall res v d,
     net r = Responds res -> ok res = false ->
     res_json res = Return v -> get_prop v "detail" = Return d ->
     reported_once h (OnError (Some (js_or d (JString "Stream failed")))) w run) /\
  (forall res e,
     net r = Responds res -> ok res = false -> res_json res = Throw e ->
     reported_once h (OnError (Some (JString "Stream failed"))) w run) /\
  (forall res,
     net r = Responds res -> ok res = true -> body res = None ->
     reported_once h (OnError (Some (JString "No response body"))) w run) /\
  (forall res b,
     net r = Responds res -> ok res = true -> body res = Some b ->
     stream_end b = Return () ->
     fst run = Return () /\
     calls (snd run) = calls w ++ omap line_call (complete_lines (stream_text b)) /\
     (forall l c, l ∈ complete_lines (stream_text b) -> event_line l (OnError c) ->
                  OnError c ∈ calls (snd run))).
Proof.
  intros Htok r run. subst r run.
  split; [|split; [|split; [|split; [|split]]]].
  - intros e Hnet.
    rewrite (sendMessageStream_fetch _ _ _ _ _ _ _ _ token Htok). simpl.
    by rewrite Hnet.
  - intros res b e Hnet Hok Hb Hend.
    by rewrite (stream_calls _ _ _ _ _ _ _ _ _ _ _ Htok Hnet Hok Hb), Hend.
  - intros res v d Hnet Hok Hv Hd.
    rewrite (sendMessageStream_fetch _ _ _ _ _ _ _ _ token Htok). cbn zeta.
    rewrite Hnet, consume_not_ok, Hv, Hd by done.
    apply (invoke_reported h _ (with_requests _ w)).
  - intros res e Hnet Hok He.
    rewrite (sendMessageStream_fetch _ _ _ _ _ _ _ _ token Htok). cbn zeta.
    rewrite Hnet, consume_not_ok, He by done.
    apply (invoke_reported h _ (with_requests _ w)).
  - intros res Hnet Hok Hb.
    rewrite (sendMessageStream_fetch _ _ _ _ _ _ _ _ token Htok). cbn zeta.
    rewrite Hnet, consume_no_body by done.
    apply (invoke_reported h _ (with_requests _ w)).
  - intros res b Hnet Hok Hb Hend.
    rewrite (stream_calls _ _ _ _ _ _ _ _ _ _ _ Htok Hnet Hok Hb), Hend.
    split; [done|]. split; [done|].
    intros l c Hl Hev. cbn [snd emit calls with_calls with_requests].
    apply elem_of_app. right. apply list_elem_of_omap.
    exists l. split; [done|]. by apply event_line_call.
Qed.

Lemma stream_errors_and_rejections_witness :
  reported_once quiet (OnError (Some (JString "Stream failed"))) (browser ∅)
    (sendMessageStream (respond 502 ["<html>Bad Gateway</html>"])
       "hello" "study_buddy" one "cse" [] quiet (browser ∅)) /\
  OnError (Some (JString "model overloaded")) ∈
    calls (snd (sendMessageStream
                  (respond 200
                     [wire "data: {'type':'error','content':'model overloaded'}" +:+ nl])
                  "hello" "study_buddy" one "cse" [] quiet (browser ∅))).
Proof.
  split.
  - exact (proj1 (proj2 (proj2 (proj2 (stream_errors_and_rejections
             (respond 502 ["<html>Bad Gateway</html>"])
             "hello" "study_buddy" one "cse" [] quiet (browser ∅) None eq_refl))))
           (Response 502 (Some (stream_of ["<html>Bad Gateway</html>"])))
           SyntaxError eq_refl eq_refl eq_refl).
  - refine (proj2 (proj2 (proj2 (proj2 (proj2 (proj2 (proj2 (stream_errors_and_rejections
             (respond 200
                [wire "data: {'type':'error','content':'model overloaded'}" +:+ nl])
             "hello" "study_buddy" one "cse" [] quiet (browser ∅) None eq_refl)))))
           (Response 200
              (Some (stream_of
                 [wire "data: {'type':'error','content':'model overloaded'}" +:+ nl])))
           (stream_of [wire "data: {'type':'error','content':'model overloaded'}" +:+ nl])
           eq_refl eq_refl eq_refl eq_refl))
         (wire "data: {'type':'error','content':'model overloaded'}")
         (Some (JString "model overloaded")) _ _).
    + vm_compute. apply list_elem_of_singleton. reflexivity.
    + apply (error_event _
               (JObject [("type", JString "error");
                         ("content", JString "model overloaded")]));
        [split|..]; reflexivity.
Defined.

(** A failed response whose body cannot be read: the rejection of the
    read is caught, onError gets the fixed message and the call returns
    normally. *)
Example stream_failed_response_unreadable :
  sendMessageStream
    (fun _ => Responds (Response 500
                (Some (Read "{" (ReadError (Failure "network error"))))))
    "hello" "study_buddy" one "cse" [] quiet (browser ∅) =
  (Return (),
   with_calls [OnError (Some (JString "Stream failed"))]
     (with_requests [stream_request "http://localhost:8000" None "hello"
                                    "study_buddy" one "cse" []] (browser ∅))).
Proof. reflexivity. Qed.

(** * The session store and the request dispatcher *)

Lemma getToken_available w items :
  localStorage w = Available items ->
  fst (getToken w) = Return (if has_window w then items !! "token" else None).
Proof.
  intros Hst. unfold getToken. run_ops.
  destruct (has_window w); simpl; [|done]. by rewrite Hst.
Qed.

(** C6 as stated fails: with the empty string stored as token,
    [getToken] returns a token and [isLoggedIn] returns false. *)
Lemma logged_in_counterexample :
  ~ logged_in_iff_token (browser {[ "token" := EmptyString ]}).
Proof.
  unfold logged_in_iff_token. intros [_ Hback].
  assert (Hfalse : fst (isLoggedIn (browser {[ "token" := EmptyString ]})) = Return true).
  { apply Hback. by exists EmptyString. }
  vm_compute in Hfalse. discriminate Hfalse.
Qed.

(** C6, amended: [isLoggedIn] returns true exactly when [getToken]
    returns a non-empty string, false when it returns null or the empty
    string, and raises what [getToken] raises; it leaves the world, the
    stored token included, as it was. *)
Theorem isLoggedIn_truthy_token w :
  isLoggedIn w =
  (match fst (getToken w) with
   | Return token => Return (truthy_string token)
   | Throw e => Throw e
   end, w).
Proof.
  unfold isLoggedIn. run_ops. rewrite (getToken_eq w).
  destruct (fst (getToken w)); [|done].
  by rewrite negb_involutive.
Qed.

Lemma api_headers_lookup token options k :
  api_headers token options !! k =
  if bool_decide (k = "Authorization") && truthy_string token
  then Some (bearer token)
  else match init_headers options ≫= (fun hs => hs !! k) with
       | Some v => Some v
       | None => if bool_decide (k = "Content-Type")
                 then Some "application/json" else None
       end.
Proof.
  assert (Hbase :
    (default ∅ (init_headers options) ∪ {[ "Content-Type" := "application/json" ]}
       : gmap string string) !! k =
    match init_headers options ≫= (fun hs => hs !! k) with
    | Some v => Some v
    | None => if bool_decide (k = "Content-Type")
              then Some "application/json" else None
    end).
  { rewrite lookup_union.
    destruct (init_headers options) as [hs|]; simpl.
    - destruct (hs !! k) as [v|]; simpl.
      + by destruct ({[ "Content-Type" := "application/json" ]} !! k).
      + rewrite (left_id None _). case_bool_decide; simplify_map_eq; done.
    - rewrite lookup_empty, (left_id None _).
      case_bool_decide; simplify_map_eq; done. }
  unfold api_headers, bearer.
  destruct (decide (k = "Authorization")) as [->|Hk].
  - rewrite bool_decide_eq_true_2 by done.
    destruct token as [[|c t]|]; simpl; try done.
    by rewrite lookup_insert_eq.
  - rewrite bool_decide_eq_false_2 by done.
    destruct token as [[|c t]|]; simpl; try done.
    by rewrite lookup_insert_ne.
Qed.

(** The requests made by [apiFetch] once the token is read. *)
Lemma apiFetch_requests net path options w token :
  fst (getToken w) = Return token ->
  requests (snd (apiFetch net path options w)) =
  requests w ++ [api_request (API_URL w) token path options].
Proof.
  intros Htok. rewrite (apiFetch_fetch _ _ _ _ token Htok). simpl.
  destruct (net _) as [res|e]; [|done].
  by rewrite settle_requests.
Qed.

Lemma sendMessageStream_requests net message mode year stream hist h w token :
  fst (getToken w) = Return token ->
  requests (snd (sendMessageStream net message mode year stream hist h w)) =
  requests w ++ [stream_request (API_URL w) token message mode year stream hist].
Proof.
  intros Htok. rewrite (sendMessageStream_fetch _ _ _ _ _ _ _ _ token Htok). simpl.
  destruct (net _) as [res|e]; [|done].
  by rewrite consume_requests.
Qed.

(** C1 as stated fails.  With the empty string stored as token, a token
    is held and [apiFetch] sends no Authorization header.  With no token
    stored, [apiFetch] sends the Authorization header that its caller
    supplied, and [sendMessageStream] sends the header "Bearer null". *)
Lemma authorization_counterexample :
  (fst (getToken (browser {[ "token" := EmptyString ]})) = Return (Some EmptyString) /\
   exists r,
     requests (snd (apiFetch (respond 200 [wire "{'id':1}"]) "/auth/me"
                             (Init None None None)
                             (browser {[ "token" := EmptyString ]}))) = [r] /\
     ~ authorization_matches (Some EmptyString) r) /\
  (fst (getToken (browser ∅)) = Return None /\
   exists r,
     requests (snd (apiFetch (respond 200 [wire "{'id':1}"]) "/auth/me"
                             (Init None (Some {[ "Authorization" := "Basic dXNlcg==" ]}) None)
                             (browser ∅))) = [r] /\
     ~ authorization_matches None r) /\
  (exists r,
     requests (snd (sendMessageStream (respond 200 []) "hello" "study_buddy" one
                      "cse" [] quiet (browser ∅))) = [r] /\
     req_headers r !! "Authorization" = Some "Bearer null" /\
     ~ authorization_matches None r).
Proof.
  split; [|split].
  - split; [reflexivity|]. eexists. split; [reflexivity|].
    unfold authorization_matches. vm_compute. discriminate.
  - split; [reflexivity|]. eexists. split; [reflexivity|].
    unfold authorization_matches. vm_compute. discriminate.
  - eexists. split; [reflexivity|]. split; [reflexivity|].
    unfold authorization_matches. vm_compute. discriminate.
Qed.

(** C1, amended: [apiFetch] sends [Authorization: Bearer <token>] when
    the stored token is a non-empty string; when there is no token or
    the token is the empty string it adds no Authorization header, so
    that the header is absent unless the caller supplied one.
    [sendMessageStream] sends [Authorization: Bearer <token>] whenever a
    token is stored. *)
Theorem authorization_follows_token
    net path options message mode year stream hist h w token :
  fst (getToken w) = Return token ->
  (exists r,
     requests (snd (apiFetch net path options w)) = requests w ++ [r] /\
     req_headers r !! "Authorization" =
       match token with
       | Some (String c t) => Some ("Bearer " +:+ String c t)
       | Some EmptyString | None =>
           init_headers options ≫= (fun hs => hs !! "Authorization")
       end) /\
  (forall t, token = Some t ->
     exists r,
       requests (snd (sendMessageStream net message mode year stream hist h w)) =
         requests w ++ [r] /\
       req_headers r !! "Authorization" = Some ("Bearer " +:+ t)).
Proof.
  intros Htok. split.
  - eexists. split; [by apply apiFetch_requests|].
    simpl. rewrite api_headers_lookup. rewrite bool_decide_eq_true_2 by done.
    destruct token as [[|c t]|]; simpl; try done.
    all: by destruct (init_headers options ≫= _).
  - intros t ->. eexists. split; [by apply sendMessageStream_requests|].
    simpl. by rewrite lookup_insert_eq.
Qed.

Lemma authorization_follows_token_witness :
  (exists r,
     requests (snd (apiFetch (respond 200 [wire "{'id':1}"]) "/auth/me"
                             (Init None None None)
                             (browser {[ "token" := "abc" ]}))) = [] ++ [r] /\
     req_headers r !! "Authorization" = Some "Bearer abc") /\
  (forall t, Some "abc" = Some t ->
     exists r,
       requests (snd (sendMessageStream (respond 200 []) "hello" "study_buddy" one
                        "cse" [] quiet (browser {[ "token" := "abc" ]}))) =
         [] ++ [r] /\
       req_headers r !! "Authorization" = Some ("Bearer " +:+ t)).
Proof.
  exact (authorization_follows_token
           (respond 200 [wire "{'id':1}"]) "/auth/me" (Init None None None)
           "hello" "study_buddy" one "cse" [] quiet
           (browser {[ "token" := "abc" ]}) (Some "abc") eq_refl).
Defined.

(** C3 as stated fails: without a window, an unauthorized response
    removes the token and fails with "Unauthorized", and no navigation
    takes place. *)
Lemma unauthorized_counterexample :
  fst (apiFetch (respond 401 []) "/auth/me" (Init None None None)
         (headless {[ "token" := "abc" ]})) = Throw (Error (JString "Unauthorized")) /\
  navigations (snd (apiFetch (respond 401 []) "/auth/me" (Init None None None)
                      (headless {[ "token" := "abc" ]}))) = [].
Proof. split; reflexivity. Qed.

(** Where [localStorage] is not defined, [clearToken] raises before the
    navigation and before the "Unauthorized" error. *)
Example unauthorized_without_storage :
  apiFetch (respond 401 []) "/auth/me" (Init None None None) server =
  (Throw (Failure "ReferenceError: localStorage is not defined"),
   with_requests [api_request "http://localhost:8000" None "/auth/me"
                              (Init None None None)] server).
Proof. reflexivity. Qed.

(** C3, amended: for every path and options, when the response has
    status 401 and [localStorage] is accessible, the token is removed
    from it, the call fails with the error "Unauthorized", the one
    request already made is the only one (no retry), and nothing of the
    response besides its status is used (the body is not parsed); the
    navigation to the login page takes place exactly once when a window
    exists and not at all when there is none. *)
Theorem unauthorized_clears_and_redirects net path options w items res :
  localStorage w = Available items ->
  let token := if has_window w then items !! "token" else None in
  net (api_request (API_URL w) token path options) = Responds res ->
  status res = 401 ->
  apiFetch net path options w =
  (Throw (Error (JString "Unauthorized")),
   World (NEXT_PUBLIC_API_URL w) (has_window w)
         (Available (delete "token" items))
         (navigations w ++ (if has_window w then ["/login"] else []))
         (requests w ++ [api_request (API_URL w) token path options])
         (calls w)).
Proof.
  intros Hst token Hnet H401.
  rewrite (apiFetch_fetch _ _ _ _ token (getToken_available w items Hst)).
  simpl. rewrite Hnet.
  unfold settle, clearToken. rewrite H401. simpl. run_ops.
  destruct w as [u win st nav reqs cs]. simpl in *. subst st.
  destruct win; simpl; [done|].
  unfold with_storage, with_requests. simpl. by rewrite app_nil_r.
Qed.

Lemma unauthorized_clears_and_redirects_witness :
  apiFetch (respond 401 [wire "{'detail':'Token expired'}"]) "/conversations/"
           (Init None None None) (browser {[ "token" := "abc" ]}) =
  (Throw (Error (JString "Unauthorized")),
   World None true (Available (delete "token" {[ "token" := "abc" ]}))
         ([] ++ ["/login"])
         ([] ++ [api_request "http://localhost:8000" (Some "abc") "/conversations/"
                             (Init None None None)])
         []).
Proof.
  exact (unauthorized_clears_and_redirects
           (respond 401 [wire "{'detail':'Token expired'}"]) "/conversations/"
           (Init None None None) (browser {[ "token" := "abc" ]})
           {[ "token" := "abc" ]}
           (Response 401 (Some (stream_of [wire "{'detail':'Token expired'}"])))
           eq_refl eq_refl eq_refl).
Defined.

(** C5 as stated fails: with a token stored, an Authorization header
    supplied by the caller is not the one sent. *)
Lemma caller_headers_counterexample :
  exists r,
    requests (snd (apiFetch (respond 200 [wire "{'id':1}"]) "/auth/me"
                     (Init None (Some {[ "Authorization" := "Basic dXNlcg==" ]}) None)
                     (browser {[ "token" := "abc" ]}))) = [r] /\
    ~ caller_headers_sent
        (Init None (Some {[ "Authorization" := "Basic dXNlcg==" ]}) None) r.
Proof.
  eexists. split; [reflexivity|].
  intros Hsent.
  specialize (Hsent _ "Authorization" "Basic dXNlcg==" eq_refl eq_refl).
  vm_compute in Hsent. discriminate Hsent.
Qed.

(** C5, amended: the headers sent by [apiFetch] are the caller's headers
    over the fixed [Content-Type: application/json], so that the caller's
    value is sent for every name the caller supplies, except that with a
    non-empty token stored [Authorization] is [Bearer <token>] whatever
    the caller supplied for it. *)
Theorem caller_headers_merged net path options w token :
  fst (getToken w) = Return token ->
  exists r,
    requests (snd (apiFetch net path options w)) = requests w ++ [r] /\
    forall k,
      req_headers r !! k =
      if bool_decide (k = "Authorization") && truthy_string token
      then Some (bearer token)
      else match init_headers options ≫= (fun hs => hs !! k) with
           | Some v => Some v
           | None => if bool_decide (k = "Content-Type")
                     then Some "application/json" else None
           end.
Proof.
  intros Htok. eexists. split; [by apply apiFetch_requests|].
  intros k. simpl. apply api_headers_lookup.
Qed.

Lemma caller_headers_merged_witness :
  exists r,
    requests (snd (apiFetch (respond 200 [wire "{'id':1}"]) "/auth/me"
                     (Init None (Some {[ "Content-Type" := "text/plain" ]}) None)
                     (browser {[ "token" := "abc" ]}))) = [] ++ [r] /\
    forall k,
      req_headers r !! k =
      if bool_decide (k = "Authorization") && true
      then Some "Bearer abc"
      else match ({[ "Content-Type" := "text/plain" ]} : gmap string string) !! k with
           | Some v => Some v
           | None => if bool_decide (k = "Content-Type")
                     then Some "application/json" else None
           end.
Proof.
  exact (caller_headers_merged
           (respond 200 [wire "{'id':1}"]) "/auth/me"
           (Init None (Some {[ "Content-Type" := "text/plain" ]}) None)
           (browser {[ "token" := "abc" ]}) (Some "abc") eq_refl).
Defined.

(** * The conversation history on the wire *)

Lemma same_but_sources_entries hist hist' :
  same_but_sources hist hist' ->
  map history_entry hist = map history_entry hist'.
Proof.
  induction 1 as [|m m' hist hist' [Hrole Hcontent] _ IH]; simpl; [done|].
  unfold history_entry at 1 3. by rewrite Hrole, Hcontent, IH.
Qed.

Lemma chat_payload_history message mode year stream hist :
  exists members,
    chat_payload message mode year stream hist = JObject members /\
    lookup_member "conversation_history" members =
      Some (JArray (map (fun m => JObject [("role", JString (role_name (role m)));
                                           ("content", JString (content m))])
                        hist)).
Proof. eexists. split; reflexivity. Qed.

(** C7: [sendMessage] and [sendMessageStream] each send exactly one
    request (once the token is read; none when reading it fails), and
    the body of that request is the serialisation of the object with the
    message, the mode, the year, the stream and, as conversation_history,
    the list of the {role, content} pairs of the messages passed, in
    their order and without the sources.  Consequently two histories
    that agree on the role and the content of each message give the same
    body, and the same run of each function: the same requests and the
    same result. *)
Theorem history_sent_without_sources
    net message mode year stream hist hist' h w :
  let body msgs :=
    JSON_stringify
      (JObject [("message", JString message);
                ("mode", JString mode);
                ("year", JNumber year);
                ("stream", JString stream);
                ("conversation_history",
                 JArray (map (fun m => JObject [("role", JString (role_name (role m)));
                                                ("content", JString (content m))])
                             msgs))]) in
  (forall token, fst (getToken w) = Return token ->
     exists r1 r2,
       requests (snd (sendMessage net message mode year stream hist w)) =
         requests w ++ [r1] /\
       requests (snd (sendMessageStream net message mode year stream hist h w)) =
         requests w ++ [r2] /\
       req_url r1 = API_URL w +:+ "/chat" /\
       req_url r2 = API_URL w +:+ "/chat/stream" /\
       req_body r1 = Some (body hist) /\ req_body r2 = Some (body hist) /\
       carries_history r1 hist /\ carries_history r2 hist) /\
  (forall e, fst (getToken w) = Throw e ->
     requests (snd (sendMessage net message mode year stream hist w)) = requests w /\
     requests (snd (sendMessageStream net message mode year stream hist h w)) =
       requests w) /\
  (same_but_sources hist hist' ->
   body hist = body hist' /\
   sendMessage net message mode year stream hist w =
     sendMessage net message mode year stream hist' w /\
   sendMessageStream net message mode year stream hist h w =
     sendMessageStream net message mode year stream hist' h w).
Proof.
  cbn zeta.
  destruct (chat_payload_history message mode year stream hist)
    as [members [Hpayload Hhistory]].
  split; [|split].
  - intros token Htok.
    exists (api_request (API_URL w) token "/chat"
              (Init (Some "POST") None
                    (Some (JSON_stringify
                             (chat_payload message mode year stream hist))))),
           (stream_request (API_URL w) token message mode year stream hist).
    split; [by apply apiFetch_requests|].
    split; [by apply sendMessageStream_requests|].
    do 4 (split; [done|]).
    split; exists members; simpl; by rewrite Hpayload.
  - intros e Htok. unfold sendMessage.
    by rewrite (apiFetch_no_token _ _ _ _ e Htok),
               (sendMessageStream_no_token _ _ _ _ _ _ _ _ e Htok).
  - intros Hsame%same_but_sources_entries.
    pose proof Hsame as Hpairs. unfold history_entry in Hpairs.
    unfold sendMessage, sendMessageStream, stream_request, chat_payload.
    by rewrite Hsame, Hpairs.
Qed.

Lemma history_sent_without_sources_witness :
  exists r1 r2,
    requests (snd (sendMessage (respond 200 [wire "{'response':'ok','sources':[]}"])
                     "and then?" "study_buddy" one "cse"
                     [Build_ChatMessage user "what is a B-tree?" None;
                      Build_ChatMessage assistant "A balanced search tree."
                        (Some [Build_Source "dbms_unit3.pdf" "notes"
                                 (Some "https://drive.example/1")])]
                     (browser {[ "token" := "abc" ]}))) = [] ++ [r1] /\
    requests (snd (sendMessageStream
                     (respond 200 [wire "{'response':'ok','sources':[]}"])
                     "and then?" "study_buddy" one "cse"
                     [Build_ChatMessage user "what is a B-tree?" None;
                      Build_ChatMessage assistant "A balanced search tree."
                        (Some [Build_Source "dbms_unit3.pdf" "notes"
                                 (Some "https://drive.example/1")])]
                     quiet (browser {[ "token" := "abc" ]}))) = [] ++ [r2] /\
    req_url r1 = "http://localhost:8000" +:+ "/chat" /\
    req_url r2 = "http://localhost:8000" +:+ "/chat/stream" /\
    req_body r1 =
      Some (wire ("{'message':'and then?','mode':'study_buddy','year':1,'stream':'cse',"
                  +:+ "'conversation_history':["
                  +:+ "{'role':'user','content':'what is a B-tree?'},"
                  +:+ "{'role':'assistant','content':'A balanced search tree.'}]}")) /\
    req_body r2 =
      Some (wire ("{'message':'and then?','mode':'study_buddy','year':1,'stream':'cse',"
                  +:+ "'conversation_history':["
                  +:+ "{'role':'user','content':'what is a B-tree?'},"
                  +:+ "{'role':'assistant','content':'A balanced search tree.'}]}")) /\
    carries_history r1
      [Build_ChatMessage user "what is a B-tree?" None;
       Build_ChatMessage assistant "A balanced search tree."
         (Some [Build_Source "dbms_unit3.pdf" "notes" (Some "https://drive.example/1")])] /\
    carries_history r2
      [Build_ChatMessage user "what is a B-tree?" None;
       Build_ChatMessage assistant "A balanced search tree."
         (Some [Build_Source "dbms_unit3.pdf" "notes" (Some "https://drive.example/1")])].
Proof.
  exact (proj1 (history_sent_without_sources
                  (respond 200 [wire "{'response':'ok','sources':[]}"])
                  "and then?" "study_buddy" one "cse"
                  [Build_ChatMessage user "what is a B-tree?" None;
                   Build_ChatMessage assistant "A balanced search tree."
                     (Some [Build_Source "dbms_unit3.pdf" "notes"
                              (Some "https://drive.example/1")])]
                  [] quiet (browser {[ "token" := "abc" ]}))
               (Some "abc") eq_refl).
Defined.

(** * The rest of the client *)

(** ** The session store *)

Lemma getToken_browser w items :
  has_window w = true -> localStorage w = Available items ->
  getToken w = (Return (items !! "token"), w).
Proof.
  intros Hwin Hst. rewrite (getToken_eq w), (getToken_available w items Hst).
  by rewrite Hwin.
Qed.

Lemma bind_run {A B} (m : M A) (k : A -> M B) w :
  (m ≫= k) w = match m w with
               | (Return a, w') => k a w'
               | (Throw e, w') => (Throw e, w')
               end.
Proof. reflexivity. Qed.

Lemma setToken_run w items t :
  localStorage w = Available items ->
  setToken t w = (Return (), with_storage (Available (<[ "token" := t ]> items)) w).
Proof. intros Hst. unfold setToken, localStorage_setItem. by rewrite Hst. Qed.

Lemma clearToken_run w items :
  localStorage w = Available items ->
  clearToken w = (Return (), with_storage (Available (delete "token" items)) w).
Proof. intros Hst. unfold clearToken, localStorage_removeItem. by rewrite Hst. Qed.

Lemma isLoggedIn_run w :
  isLoggedIn w = (match fst (getToken w) with
                  | Return token => Return (truthy_string token)
                  | Throw e => Throw e
                  end, w).
Proof.
  unfold isLoggedIn. rewrite bind_run, (getToken_eq w).
  destruct (fst (getToken w)); [|done].
  unfold mret, M_ret, ret. by rewrite negb_involutive.
Qed.

(** X1: in a browser, the token that [setToken] stores is the one
    [getToken] returns next; storing again replaces it, so that the
    store is the same as if only the last token had been stored; the
    other keys of the storage keep their values. *)
Theorem setToken_then_getToken w items t1 t2 :
  has_window w = true ->
  localStorage w = Available items ->
  (setToken t1 ;; getToken) w =
    (Return (Some t1), with_storage (Available (<[ "token" := t1 ]> items)) w) /\
  (setToken t1 ;; setToken t2) w = setToken t2 w /\
  (forall k, k <> "token" -> <[ "token" := t1 ]> items !! k = items !! k).
Proof.
  intros Hwin Hst.
  rewrite !bind_run, !(setToken_run w items) by done.
  split; [|split].
  - rewrite (getToken_browser _ (<[ "token" := t1 ]> items)) by done.
    by rewrite lookup_insert_eq.
  - rewrite (setToken_run _ (<[ "token" := t1 ]> items)) by done.
    unfold with_storage. simpl. by rewrite insert_insert_eq.
  - intros k Hk. by rewrite lookup_insert_ne.
Qed.

Lemma setToken_then_getToken_witness :
  (setToken "abc" ;; getToken) (browser {[ "theme" := "dark" ]}) =
    (Return (Some "abc"),
     with_storage (Available (<[ "token" := "abc" ]> {[ "theme" := "dark" ]}))
                  (browser {[ "theme" := "dark" ]})) /\
  (setToken "abc" ;; setToken "xyz") (browser {[ "theme" := "dark" ]}) =
    setToken "xyz" (browser {[ "theme" := "dark" ]}) /\
  (forall k, k <> "token" ->
     <[ "token" := "abc" ]> ({[ "theme" := "dark" ]} : gmap string string) !! k =
     ({[ "theme" := "dark" ]} : gmap string string) !! k).
Proof.
  exact (setToken_then_getToken (browser {[ "theme" := "dark" ]})
           {[ "theme" := "dark" ]} "abc" "xyz" eq_refl eq_refl).
Defined.

(** X2: [clearToken] is idempotent and removes only the token: after
    it [getToken] returns null and [isLoggedIn] false in a browser,
    clearing twice leaves the same world as clearing once, and the other
    keys of the storage keep their values. *)
Theorem clearToken_idempotent w items :
  has_window w = true ->
  localStorage w = Available items ->
  (clearToken ;; getToken) w =
    (Return None, with_storage (Available (delete "token" items)) w) /\
  (clearToken ;; isLoggedIn) w =
    (Return false, with_storage (Available (delete "token" items)) w) /\
  (clearToken ;; clearToken) w = clearToken w /\
  (forall k, k <> "token" -> delete "token" items !! k = items !! k).
Proof.
  intros Hwin Hst.
  assert (Hget : getToken (with_storage (Available (delete "token" items)) w) =
                 (Return None, with_storage (Available (delete "token" items)) w)).
  { rewrite (getToken_browser _ (delete "token" items)) by done.
    by rewrite lookup_delete_eq. }
  rewrite !bind_run, !(clearToken_run w items) by done.
  split; [done|]. split; [|split].
  - by rewrite isLoggedIn_run, Hget.
  - rewrite (clearToken_run _ (delete "token" items)) by done.
    unfold with_storage. simpl. by rewrite delete_delete_eq.
  - intros k Hk. by rewrite lookup_delete_ne.
Qed.

Lemma clearToken_idempotent_witness :
  (clearToken ;; getToken) (browser {[ "token" := "abc" ]}) =
    (Return None,
     with_storage (Available (delete "token" {[ "token" := "abc" ]}))
                  (browser {[ "token" := "abc" ]})) /\
  (clearToken ;; isLoggedIn) (browser {[ "token" := "abc" ]}) =
    (Return false,
     with_storage (Available (delete "token" {[ "token" := "abc" ]}))
                  (browser {[ "token" := "abc" ]})) /\
  (clearToken ;; clearToken) (browser {[ "token" := "abc" ]}) =
    clearToken (browser {[ "token" := "abc" ]}) /\
  (forall k, k <> "token" ->
     delete "token" ({[ "token" := "abc" ]} : gmap string string) !! k =
     ({[ "token" := "abc" ]} : gmap string string) !! k).
Proof.
  exact (clearToken_idempotent (browser {[ "token" := "abc" ]})
           {[ "token" := "abc" ]} eq_refl eq_refl).
Defined.

(** ** The request dispatcher *)

Lemma ok_not_unauthorized res : ok res = true -> (status res =? 401) = false.
Proof. unfold ok. intros [H1 H2]%andb_prop. lia. Qed.

Lemma settle_ok res w : ok res = true -> settle res w = (res_json res, w).
Proof.
  intros Hok. unfold settle.
  by rewrite (ok_not_unauthorized res Hok), Hok.
Qed.

Lemma settle_failure res w :
  status res <> 401 -> ok res = false -> settle res w = (failure_of res, w).
Proof.
  intros H401 Hok. unfold settle, failure_of.
  rewrite (proj2 (Z.eqb_neq _ _) H401), Hok. simpl. run_ops.
  destruct (res_json res) as [v|e]; simpl; [|done].
  destruct (get_prop v "detail") as [d|e]; simpl; [|done].
  by destruct (new_Error _).
Qed.

(** Induction on a value of JSON and the elements of its arrays. *)
Lemma json_array_ind (P : json -> Prop) :
  P JNull -> (forall b, P (JBool b)) -> (forall n, P (JNumber n)) ->
  (forall s, P (JString s)) ->
  (forall items, Forall P items -> P (JArray items)) ->
  (forall members, P (JObject members)) ->
  forall v, P v.
Proof.
  intros HNull HBool HNumber HString HArray HObject.
  refine (fix IH (v : json) : P v :=
            match v with
            | JNull => HNull
            | JBool b => HBool b
            | JNumber n => HNumber n
            | JString s => HString s
            | JArray items =>
                HArray items
                  ((fix all (xs : list json) : Forall P xs :=
                      match xs with
                      | [] => @List.Forall_nil _ P
                      | x :: xs' => @List.Forall_cons _ P x xs' (IH x) (all xs')
                      end) items)
            | JObject members => HObject members
            end).
Qed.

(** The conversion to a string throws nothing but a TypeError. *)
Lemma to_string_throws v e : to_string v = Throw e -> e = TypeError.
Proof.
  revert e. induction v as [| [|] | n | s | items IH | members] using json_array_ind;
    intros e; simpl; try done.
  - induction IH as [|x items Hx _ IHitems]; simpl; [done|].
    intros H.
    destruct (match x with JNull => Return [] | _ => to_string x end) as [part|e']
      eqn:Ex.
    + apply IHitems.
      destruct ((fix join (xs : list json) : outcome (list (list ascii)) :=
                   match xs with
                   | [] => Return []
                   | x :: xs' =>
                       match match x with
                             | JNull => Return []
                             | _ => to_string x
                             end with
                       | Return part =>
                           match join xs' with
                           | Return parts => Return (part :: parts)
                           | Throw e => Throw e
                           end
                       | Throw e => Throw e
                       end
                   end) items); [done|].
      by injection H as ->.
    + injection H as <-. destruct x; try done; by apply Hx.
  - destruct (lookup_member "toString" members); [|done]. by intros [= <-].
Qed.

Lemma js_to_string_throws v e : js_to_string v = Throw e -> e = TypeError.
Proof.
  destruct v as [j|]; simpl; [|done].
  destruct (to_string j) eqn:H; [done|].
  intros [= <-]. by apply (to_string_throws j).
Qed.

(** A string is its own text. *)
Lemma js_to_string_string s : js_to_string (Some (JString s)) = Return s.
Proof. simpl. by rewrite string_of_list_ascii_of_string. Qed.

(** On a string [setToken] does what it does on any value. *)
Lemma setToken_value_string t : setToken_value (Some (JString t)) = setToken t.
Proof.
  unfold setToken_value, setToken, localStorage_setItem_value, localStorage_setItem.
  by rewrite js_to_string_string.
Qed.

(** Numbers print as their doubles: the short decimals as written, a
    long integer with its last digits rounded, a decimal beyond the
    largest double as [Infinity], one below half the least double as
    zero. *)
Example numbers_print_as_doubles :
  map number_text
      [Number false 42 0; Number false 1 (-1); Number true 15 (-1);
       Number false 12345678901234567890 0; Number false 9007199254740993 0;
       Number false 30000000000000004 (-17);
       Number false 1 21; Number false 1 (-7); Number false 5 (-324);
       Number false 17976931348623157 292; Number false 1 400;
       Number true 1 400; Number false 2 (-324); Number true 0 0] =
  ["42"; "0.1"; "-1.5"; "12345678901234567000"; "9007199254740992";
   "0.30000000000000004"; "1e+21"; "1e-7"; "5e-324";
   "1.7976931348623157e+308"; "Infinity"; "-Infinity"; "0"; "0"].
Proof. vm_compute. reflexivity. Qed.

(** Conversions of values of JSON to strings. *)
Example conversions_to_string :
  js_to_string None = Return "undefined" /\
  js_to_string (Some JNull) = Return "null" /\
  js_to_string (JSON_parse (wire "[1,null,[true,'a'],{'b':2}]")) =
    Return "1,,true,a,[object Object]" /\
  js_to_string (JSON_parse (wire "{'toString':1}")) = Throw TypeError /\
  js_to_string (JSON_parse (wire "{'valueOf':1}")) = Return "[object Object]" /\
  js_to_string (JSON_parse (wire "[0,[{'toString':null}]]")) = Throw TypeError.
Proof. vm_compute. done. Qed.

Lemma settle_unauthorized res w items :
  status res = 401 -> localStorage w = Available items ->
  settle res w =
  (Throw (Error (JString "Unauthorized")),
   World (NEXT_PUBLIC_API_URL w) (has_window w)
         (Available (delete "token" items))
         (navigations w ++ (if has_window w then ["/login"] else []))
         (requests w) (calls w)).
Proof.
  intros H401 Hst. unfold settle, clearToken. rewrite H401. simpl. run_ops.
  destruct w as [u win st nav reqs cs]. simpl in *. subst st.
  destruct win; simpl; [done|].
  unfold with_storage. simpl. by rewrite app_nil_r.
Qed.

Lemma read_all_text b :
  read_all b = match stream_end b with
               | Return _ => Return (stream_text b)
               | Throw e => Throw e
               end.
Proof.
  induction b as [|text rest IH|e]; simpl; [done| |done].
  rewrite IH. by destruct (stream_end rest).
Qed.

(** X3: when the response is successful, [apiFetch] returns the body
    parsed as JSON and changes nothing in the world besides logging its
    one request: the token stays and no navigation takes place.  When
    the body is absent or empty, as with a 204 response, the call fails
    with a SyntaxError instead of returning. *)
Theorem apiFetch_returns_body net path options w token res :
  fst (getToken w) = Return token ->
  net (api_request (API_URL w) token path options) = Responds res ->
  ok res = true ->
  apiFetch net path options w =
    (res_json res,
     with_requests (requests w ++ [api_request (API_URL w) token path options]) w) /\
  (match body res with
   | Some b => read_all b = Return EmptyString
   | None => True
   end ->
   fst (apiFetch net path options w) = Throw SyntaxError).
Proof.
  intros Htok Hnet Hok.
  rewrite (apiFetch_fetch _ _ _ _ token Htok). simpl.
  rewrite Hnet, settle_ok by done. split; [done|]. simpl.
  unfold res_json. intros Hempty.
  destruct (body res) as [b|]; [by rewrite Hempty|done].
Qed.

Lemma apiFetch_returns_body_witness :
  apiFetch (respond 200 [wire "{'id':7,"; wire "'title':'New Chat'}"])
           "/conversations/7" (Init None None None)
           (browser {[ "token" := "abc" ]}) =
    (res_json (Response 200 (Some (stream_of [wire "{'id':7,"; wire "'title':'New Chat'}"]))),
     with_requests ([] ++ [api_request "http://localhost:8000" (Some "abc")
                                       "/conversations/7" (Init None None None)])
                   (browser {[ "token" := "abc" ]})) /\
  (read_all (stream_of [wire "{'id':7,"; wire "'title':'New Chat'}"]) =
     Return EmptyString ->
   fst (apiFetch (respond 200 [wire "{'id':7,"; wire "'title':'New Chat'}"])
          "/conversations/7" (Init None None None)
          (browser {[ "token" := "abc" ]})) = Throw SyntaxError).
Proof.
  exact (apiFetch_returns_body
           (respond 200 [wire "{'id':7,"; wire "'title':'New Chat'}"])
           "/conversations/7" (Init None None None)
           (browser {[ "token" := "abc" ]}) (Some "abc")
           (Response 200 (Some (stream_of [wire "{'id':7,"; wire "'title':'New Chat'}"])))
           eq_refl eq_refl eq_refl).
Defined.

(** X4: when the response failed with a status other than 401, the
    stored token stays, no navigation takes place and the one request is
    not repeated, and [apiFetch] throws: the Error built from the detail
    of the JSON body when that detail is truthy and has a string
    conversion, else from "Request failed" when the detail is missing or
    falsy or the body is not JSON; the TypeError of [new Error] when the
    detail has no string conversion, as an object with an own member
    [toString] has none; the TypeError of [error.detail] when the body
    is the JSON [null]. *)
Theorem apiFetch_failure net path options w token res :
  fst (getToken w) = Return token ->
  net (api_request (API_URL w) token path options) = Responds res ->
  status res <> 401 ->
  ok res = false ->
  snd (apiFetch net path options w) =
    with_requests (requests w ++ [api_request (API_URL w) token path options]) w /\
  (forall v d text,
     res_json res = Return v -> get_prop v "detail" = Return d ->
     js_to_string (Some (js_or d (JString "Request failed"))) = Return text ->
     fst (apiFetch net path options w) =
       Throw (Error (js_or d (JString "Request failed")))) /\
  (forall v d e,
     res_json res = Return v -> get_prop v "detail" = Return d ->
     js_to_string (Some (js_or d (JString "Request failed"))) = Throw e ->
     e = TypeError /\ fst (apiFetch net path options w) = Throw TypeError) /\
  (forall members v,
     res_json res = Return (JObject [("detail", JObject members)]) ->
     lookup_member "toString" members = Some v ->
     fst (apiFetch net path options w) = Throw TypeError) /\
  (res_json res = Return JNull ->
     fst (apiFetch net path options w) = Throw TypeError) /\
  (forall e, res_json res = Throw e ->
     fst (apiFetch net path options w) = Throw (Error (JString "Request failed"))).
Proof.
  intros Htok Hnet H401 Hok.
  rewrite (apiFetch_fetch _ _ _ _ token Htok). cbn zeta.
  rewrite Hnet, settle_failure by done. cbn [fst snd].
  unfold failure_of, new_Error.
  split; [done|]. split; [|split; [|split; [|split]]].
  - intros v d text Hv Hd Ht. by rewrite Hv, Hd, Ht.
  - intros v d e Hv Hd He. split; [by apply (js_to_string_throws _ _ He)|].
    rewrite Hv, Hd, He. by rewrite (js_to_string_throws _ _ He).
  - intros members v Hv Hmem. rewrite Hv. simpl. by rewrite Hmem.
  - by intros ->.
  - by intros e ->.
Qed.

Lemma apiFetch_failure_witness :
  fst (apiFetch (respond 404 [wire "{'detail':'Conversation not found'}"])
         "/conversations/7" (Init None None None)
         (browser {[ "token" := "abc" ]})) =
    Throw (Error (JString "Conversation not found")) /\
  fst (apiFetch (respond 422 [wire "{'detail':{'toString':1}}"])
         "/conversations/7" (Init None None None)
         (browser {[ "token" := "abc" ]})) = Throw TypeError.
Proof.
  split.
  - refine (proj1 (proj2 (apiFetch_failure
             (respond 404 [wire "{'detail':'Conversation not found'}"])
             "/conversations/7" (Init None None None)
             (browser {[ "token" := "abc" ]}) (Some "abc")
             (Response 404
                (Some (stream_of [wire "{'detail':'Conversation not found'}"])))
             eq_refl eq_refl _ eq_refl))
           (JObject [("detail", JString "Conversation not found")])
           (Some (JString "Conversation not found")) "Conversation not found"
           eq_refl eq_refl eq_refl).
    simpl. lia.
  - refine (proj1 (proj2 (proj2 (proj2 (apiFetch_failure
             (respond 422 [wire "{'detail':{'toString':1}}"])
             "/conversations/7" (Init None None None)
             (browser {[ "token" := "abc" ]}) (Some "abc")
             (Response 422 (Some (stream_of [wire "{'detail':{'toString':1}}"])))
             eq_refl eq_refl _ eq_refl))))
           [("toString", JNumber (Number false 1 0))] (JNumber (Number false 1 0))
           eq_refl eq_refl).
    simpl. lia.
Defined.

(** X5: whatever the network does, [apiFetch] calls no callback and
    never writes to the storage: after the call the session is as it
    was, or, and only when the response had status 401, the token has
    been removed and the navigation to the login page made where a
    window exists. *)
Theorem apiFetch_session_frame net path options w :
  let w' := snd (apiFetch net path options w) in
  calls w' = calls w /\
  has_window w' = has_window w /\
  ((localStorage w' = localStorage w /\ navigations w' = navigations w) \/
   (exists token res items,
      net (api_request (API_URL w) token path options) = Responds res /\
      status res = 401 /\
      localStorage w = Available items /\
      localStorage w' = Available (delete "token" items) /\
      navigations w' =
        navigations w ++ (if has_window w then ["/login"] else []))).
Proof.
  simpl. destruct (fst (getToken w)) as [token|e] eqn:Htok.
  - rewrite (apiFetch_fetch _ _ _ _ token Htok). simpl.
    destruct (net _) as [res|e] eqn:Hnet; [|by eauto].
    destruct (decide (status res = 401)) as [H401|H401].
    + destruct (localStorage w) as [items|e] eqn:Hst.
      * rewrite (settle_unauthorized _ _ items) by done. simpl.
        split; [done|]. split; [done|]. right. by exists token, res, items.
      * unfold settle, clearToken. rewrite H401. simpl. run_ops. simpl.
        rewrite Hst. simpl. by eauto.
    + destruct (ok res) eqn:Hok.
      * rewrite settle_ok by done. by eauto.
      * rewrite settle_failure by done. by eauto.
  - rewrite (apiFetch_no_token _ _ _ _ e Htok). by eauto.
Qed.

(** ** Authentication *)

Lemma store_token_run (call : M json) w :
  (result ← call;
   token ← lift (get_prop result "token");
   setToken_value token ;;
   ret result) w = store_token (call w).
Proof.
  unfold store_token.
  rewrite bind_run. destruct (call w) as [[result|e] w']; [|done].
  rewrite bind_run. unfold lift at 1.
  destruct (get_prop result "token") as [token|e]; [|done].
  rewrite bind_run. unfold setToken_value, localStorage_setItem_value.
  destruct (localStorage w'); [|done].
  by destruct (js_to_string token).
Qed.

Lemma login_run net email password w :
  login net email password w =
  store_token
    (apiFetch net "/auth/login"
       (Init (Some "POST") None
             (Some (JSON_stringify (JObject [("email", JString email);
                                             ("password", JString password)])))) w).
Proof. unfold login. apply store_token_run. Qed.

Lemma signup_run net data w :
  signup net data w =
  store_token
    (apiFetch net "/auth/signup"
       (Init (Some "POST") None (Some (JSON_stringify data))) w).
Proof. unfold signup. apply store_token_run. Qed.

(** [apiFetch] on a successful response, as one equation. *)
Lemma apiFetch_ok net path options w token res :
  fst (getToken w) = Return token ->
  net (api_request (API_URL w) token path options) = Responds res ->
  ok res = true ->
  apiFetch net path options w =
  (res_json res,
   with_requests (requests w ++ [api_request (API_URL w) token path options]) w).
Proof.
  intros Htok Hnet Hok. rewrite (apiFetch_fetch _ _ _ _ token Htok). simpl.
  by rewrite Hnet, settle_ok.
Qed.

(** [login] and [signup] on a successful response. *)
Lemma store_token_ok net path options w old items res result tok :
  fst (getToken w) = Return old ->
  localStorage w = Available items ->
  net (api_request (API_URL w) old path options) = Responds res ->
  ok res = true ->
  res_json res = Return result ->
  get_prop result "token" = Return tok ->
  store_token (apiFetch net path options w) =
  let sent :=
    with_requests (requests w ++ [api_request (API_URL w) old path options]) w in
  match js_to_string tok with
  | Return text =>
      (Return result, with_storage (Available (<[ "token" := text ]> items)) sent)
  | Throw e => (Throw e, sent)
  end.
Proof.
  intros Hold Hst Hnet Hok Hres Htok.
  rewrite (apiFetch_ok _ _ _ _ old res Hold Hnet Hok), Hres.
  unfold store_token. rewrite Htok. cbn [localStorage with_requests].
  by rewrite Hst.
Qed.

(** X6: when the response to [login] or [signup] is successful and its
    body is JSON other than null, the token of the body is converted to
    a string as [localStorage.setItem] converts it: a string is itself,
    a missing token is "undefined", a number is printed as its double.
    The call then returns the parsed body and the string is stored in
    place of any earlier token; in a browser [getToken] returns it
    afterwards.  When the token has no string conversion (an object with
    an own member [toString]) the call throws the TypeError instead and
    the storage keeps what it held. *)
Theorem login_stores_token net email password data w old items res result tok :
  fst (getToken w) = Return old ->
  localStorage w = Available items ->
  ok res = true ->
  res_json res = Return result ->
  get_prop result "token" = Return tok ->
  (net (request_of (API_URL w) old (Login email password)) = Responds res ->
   let sent :=
     with_requests
       (requests w ++ [request_of (API_URL w) old (Login email password)]) w in
   (forall text, js_to_string tok = Return text ->
      let w' := with_storage (Available (<[ "token" := text ]> items)) sent in
      login net email password w = (Return result, w') /\
      (has_window w = true -> fst (getToken w') = Return (Some text))) /\
   (forall e, js_to_string tok = Throw e ->
      login net email password w = (Throw TypeError, sent))) /\
  (net (request_of (API_URL w) old (Signup data)) = Responds res ->
   let sent :=
     with_requests (requests w ++ [request_of (API_URL w) old (Signup data)]) w in
   (forall text, js_to_string tok = Return text ->
      let w' := with_storage (Available (<[ "token" := text ]> items)) sent in
      signup net data w = (Return result, w') /\
      (has_window w = true -> fst (getToken w') = Return (Some text))) /\
   (forall e, js_to_string tok = Throw e ->
      signup net data w = (Throw TypeError, sent))).
Proof.
  intros Hold Hst Hok Hres Htok.
  split; intros Hnet; cbn zeta.
  - rewrite login_run,
      (store_token_ok _ _ _ _ old items res result tok Hold Hst Hnet Hok Hres Htok).
    cbn zeta. split.
    + intros text ->. split; [done|]. intros Hwin.
      rewrite (getToken_browser _ (<[ "token" := text ]> items)) by done.
      simpl. by rewrite lookup_insert_eq.
    + intros e He. rewrite He. by rewrite (js_to_string_throws _ _ He).
  - rewrite signup_run,
      (store_token_ok _ _ _ _ old items res result tok Hold Hst Hnet Hok Hres Htok).
    cbn zeta. split.
    + intros text ->. split; [done|]. intros Hwin.
      rewrite (getToken_browser _ (<[ "token" := text ]> items)) by done.
      simpl. by rewrite lookup_insert_eq.
    + intros e He. rewrite He. by rewrite (js_to_string_throws _ _ He).
Qed.

Lemma login_stores_token_witness :
  fst (login (respond 200 [wire "{'token':'eyJhbGciOi','user':{'id':1}}"])
         "a@bmsit.in" "secret" (browser {[ "token" := "stale" ]})) =
    Return (JObject [("token", JString "eyJhbGciOi");
                     ("user", JObject [("id", JNumber (Number false 1 0))])]) /\
  fst (getToken
         (snd (login (respond 200 [wire "{'token':'eyJhbGciOi','user':{'id':1}}"])
                 "a@bmsit.in" "secret" (browser {[ "token" := "stale" ]})))) =
    Return (Some "eyJhbGciOi").
Proof.
  pose proof (proj1 (proj1 (login_stores_token
           (respond 200 [wire "{'token':'eyJhbGciOi','user':{'id':1}}"])
           "a@bmsit.in" "secret" JNull
           (browser {[ "token" := "stale" ]}) (Some "stale") {[ "token" := "stale" ]}
           (Response 200 (Some (stream_of [wire "{'token':'eyJhbGciOi','user':{'id':1}}"])))
           (JObject [("token", JString "eyJhbGciOi");
                     ("user", JObject [("id", JNumber (Number false 1 0))])])
           (Some (JString "eyJhbGciOi"))
           eq_refl eq_refl eq_refl eq_refl eq_refl) eq_refl)
           "eyJhbGciOi" eq_refl) as [Hrun Hget].
  split.
  - exact (f_equal fst Hrun).
  - rewrite Hrun. exact (Hget eq_refl).
Defined.

(** A numeric token is stored as its double prints, and a token with an
    own member [toString] is not stored at all. *)
Example login_numeric_token :
  localStorage
    (snd (login (respond 200 [wire "{'token':12345678901234567890}"])
            "a@bmsit.in" "secret" (browser {[ "token" := "stale" ]}))) =
  Available {[ "token" := "12345678901234567000" ]}.
Proof. vm_compute. reflexivity. Qed.

Example login_token_without_string :
  login (respond 200 [wire "{'token':{'toString':null}}"])
        "a@bmsit.in" "secret" (browser {[ "token" := "stale" ]}) =
  (Throw TypeError,
   with_requests
     [request_of "http://localhost:8000" (Some "stale") (Login "a@bmsit.in" "secret")]
     (browser {[ "token" := "stale" ]})).
Proof. vm_compute. reflexivity. Qed.

(** X7: after a successful [login] in a browser, [isLoggedIn] is true
    exactly when the string stored for the token is not empty, and the
    next request of [apiFetch] then carries it as
    [Authorization: Bearer <string>]; so a response without token, which
    stores "undefined", logs the user in with the header
    "Bearer undefined".  The string is the token of the response as
    [localStorage.setItem] converts it; when the token has no string
    conversion, [login] throws the TypeError, [isLoggedIn] is not
    reached and the token stored before is still the one [getToken]
    returns. *)
Theorem login_then_request
    net email password w old items res result tok net' path options :
  has_window w = true ->
  localStorage w = Available items ->
  fst (getToken w) = Return old ->
  net (request_of (API_URL w) old (Login email password)) = Responds res ->
  ok res = true ->
  res_json res = Return result ->
  get_prop result "token" = Return tok ->
  (forall stored, js_to_string tok = Return stored ->
     fst ((login net email password ;; isLoggedIn) w) =
       Return (truthy_string (Some stored)) /\
     (stored <> EmptyString ->
      exists r,
        requests (snd ((login net email password ;; apiFetch net' path options) w)) =
          requests w ++ [request_of (API_URL w) old (Login email password); r] /\
        req_headers r !! "Authorization" = Some ("Bearer " +:+ stored))) /\
  (forall e, js_to_string tok = Throw e ->
     fst ((login net email password ;; isLoggedIn) w) = Throw TypeError /\
     fst (getToken (snd (login net email password w))) = Return (items !! "token")).
Proof.
  intros Hwin Hst Hold Hnet Hok Hres Htok.
  pose proof (store_token_ok _ _ _ _ old items res result tok
                Hold Hst Hnet Hok Hres Htok) as Hrun.
  cbn zeta in Hrun. rewrite <- login_run in Hrun.
  split.
  - intros stored Hstored. rewrite Hstored in Hrun.
    match type of Hrun with _ = (_, ?w1) => set (w' := w1) in * end.
    assert (Hget : fst (getToken w') = Return (Some stored)).
    { rewrite (getToken_browser _ (<[ "token" := stored ]> items)) by done.
      simpl. by rewrite lookup_insert_eq. }
    rewrite !bind_run, Hrun. split.
    + by rewrite isLoggedIn_run, Hget.
    + intros Hne. eexists. split.
      * rewrite (apiFetch_requests _ _ _ _ _ Hget). simpl.
        by rewrite <- app_assoc.
      * unfold api_request. cbn [req_headers]. rewrite api_headers_lookup.
        rewrite bool_decide_eq_true_2 by done.
        by destruct stored.
  - intros e He. rewrite He, (js_to_string_throws _ _ He) in Hrun.
    rewrite bind_run, Hrun. split; [done|].
    by rewrite (getToken_browser _ items).
Qed.

Lemma login_then_request_witness :
  fst ((login (respond 200 [wire "{'user':{'id':1}}"]) "a@bmsit.in" "secret" ;;
        isLoggedIn) (browser ∅)) = Return true /\
  exists r,
    requests (snd ((login (respond 200 [wire "{'user':{'id':1}}"])
                      "a@bmsit.in" "secret" ;;
                    apiFetch (respond 200 [wire "{'id':1}"]) "/auth/me"
                             (Init None None None)) (browser ∅))) =
      [] ++ [request_of "http://localhost:8000" None (Login "a@bmsit.in" "secret"); r] /\
    req_headers r !! "Authorization" = Some "Bearer undefined".
Proof.
  split.
  - exact (proj1 (proj1 (login_then_request
              (respond 200 [wire "{'user':{'id':1}}"]) "a@bmsit.in" "secret"
              (browser ∅) None ∅
              (Response 200 (Some (stream_of [wire "{'user':{'id':1}}"])))
              (JObject [("user", JObject [("id", JNumber (Number false 1 0))])])
              None
              (respond 200 [wire "{'id':1}"]) "/auth/me" (Init None None None)
              eq_refl eq_refl eq_refl eq_refl eq_refl eq_refl eq_refl)
            "undefined" eq_refl)).
  - refine (proj2 (proj1 (login_then_request
              (respond 200 [wire "{'user':{'id':1}}"]) "a@bmsit.in" "secret"
              (browser ∅) None ∅
              (Response 200 (Some (stream_of [wire "{'user':{'id':1}}"])))
              (JObject [("user", JObject [("id", JNumber (Number false 1 0))])])
              None
              (respond 200 [wire "{'id':1}"]) "/auth/me" (Init None None None)
              eq_refl eq_refl eq_refl eq_refl eq_refl eq_refl eq_refl)
            "undefined" eq_refl) _).
    discriminate.
Defined.




(** X9: in a browser [logout] removes the token, navigates to the
    login page once and makes no request, after which [isLoggedIn] is
    false; where there is no window it raises a ReferenceError at the
    navigation, with the token already removed. *)
Theorem logout_ends_session w items :
  localStorage w = Available items ->
  (has_window w = true ->
   logout w =
     (Return (),
      with_navigations (navigations w ++ ["/login"])
        (with_storage (Available (delete "token" items)) w)) /\
   fst ((logout ;; isLoggedIn) w) = Return false) /\
  (has_window w = false ->
   logout w =
     (Throw (Failure "ReferenceError: window is not defined"),
      with_storage (Available (delete "token" items)) w)).
Proof.
  intros Hst. unfold logout. split; intros Hwin.
  - assert (Hrun : (clearToken ;; window_location_assign "/login") w =
                   (Return (),
                    with_navigations (navigations w ++ ["/login"])
                      (with_storage (Available (delete "token" items)) w))).
    { rewrite bind_run, (clearToken_run w items Hst).
      unfold window_location_assign. simpl. by rewrite Hwin. }
    split; [done|].
    rewrite bind_run, Hrun, isLoggedIn_run.
    rewrite (getToken_browser _ (delete "token" items)) by done.
    simpl. by rewrite lookup_delete_eq.
  - rewrite bind_run, (clearToken_run w items Hst).
    unfold window_location_assign. simpl. by rewrite Hwin.
Qed.

Lemma logout_ends_session_witness :
  logout (browser {[ "token" := "abc" ]}) =
    (Return (),
     with_navigations ([] ++ ["/login"])
       (with_storage (Available (delete "token" {[ "token" := "abc" ]}))
                     (browser {[ "token" := "abc" ]}))) /\
  fst ((logout ;; isLoggedIn) (browser {[ "token" := "abc" ]})) = Return false.
Proof.
  exact (proj1 (logout_ends_session (browser {[ "token" := "abc" ]})
                  {[ "token" := "abc" ]} eq_refl) eq_refl).
Defined.

(** ** All the calls of the client *)

Lemma store_token_requests run :
  requests (snd (store_token run)) = requests (snd run).
Proof.
  unfold store_token. destruct run as [[result|e] w']; [|done].
  destruct (get_prop result "token"); [|done].
  destruct (localStorage w'); [|done].
  by destruct (js_to_string _).
Qed.

Lemma perform_requests net c w token :
  fst (getToken w) = Return token ->
  requests (snd (perform net c w)) =
  requests w ++ [request_of (API_URL w) token c].
Proof.
  intros Htok.
  destruct c; simpl;
    rewrite ?login_run, ?signup_run, ?store_token_requests;
    by apply apiFetch_requests.
Qed.

(** X10: every function of the client that goes through [apiFetch]
    (signup, login, forgotPassword, getMe, sendMessage and the five
    conversation functions) makes exactly one request per call, whatever
    the response: no call retries or makes a second request.  The
    request goes to the configured base address followed by the path of
    the function, with the method and the body of the function. *)
Theorem every_call_one_request net c w token :
  fst (getToken w) = Return token ->
  requests (snd (perform net c w)) =
    requests w ++ [request_of (API_URL w) token c] /\
  req_url (request_of (API_URL w) token c) =
    JsString.or_default (NEXT_PUBLIC_API_URL w) "http://localhost:8000" +:+
    match c with
    | Signup _ => "/auth/signup"
    | Login _ _ => "/auth/login"
    | ForgotPassword _ => "/auth/forgot-password"
    | GetMe => "/auth/me"
    | SendMessage _ _ _ _ _ => "/chat"
    | ListConversations | CreateConversation _ _ => "/conversations/"
    | GetConversation id | UpdateConversation id _ | DeleteConversation id =>
        "/conversations/" +:+ number_text id
    end /\
  req_method (request_of (API_URL w) token c) =
    match c with
    | GetMe | ListConversations | GetConversation _ => None
    | UpdateConversation _ _ => Some "PUT"
    | DeleteConversation _ => Some "DELETE"
    | _ => Some "POST"
    end.
Proof.
  intros Htok. split; [by apply perform_requests|].
  by destruct c.
Qed.

Lemma every_call_one_request_witness :
  requests (snd (perform (respond 200 []) (DeleteConversation (Number false 42 0))
                   (browser {[ "token" := "abc" ]}))) =
    [] ++ [request_of "http://localhost:8000" (Some "abc")
                      (DeleteConversation (Number false 42 0))] /\
  req_url (request_of "http://localhost:8000" (Some "abc")
                      (DeleteConversation (Number false 42 0))) =
    "http://localhost:8000" +:+ ("/conversations/" +:+ "42") /\
  req_method (request_of "http://localhost:8000" (Some "abc")
                         (DeleteConversation (Number false 42 0))) = Some "DELETE".
Proof.
  exact (every_call_one_request (respond 200 [])
           (DeleteConversation (Number false 42 0))
           (browser {[ "token" := "abc" ]}) (Some "abc") eq_refl).
Defined.


Lemma apiFetch_unauthorized net path options w items res :
  localStorage w = Available items ->
  let token := if has_window w then items !! "token" else None in
  net (api_request (API_URL w) token path options) = Responds res ->
  status res = 401 ->
  apiFetch net path options w =
  (Throw (Error (JString "Unauthorized")),
   World (NEXT_PUBLIC_API_URL w) (has_window w)
         (Available (delete "token" items))
         (navigations w ++ (if has_window w then ["/login"] else []))
         (requests w ++ [api_request (API_URL w) token path options])
         (calls w)).
Proof.
  intros Hst token Hnet H401.
  rewrite (apiFetch_fetch _ _ _ _ token (getToken_available w items Hst)).
  simpl. rewrite Hnet.
  by rewrite (settle_unauthorized _ _ items).
Qed.

(** X11: the handling of an unauthorized response is the same for
    every function that goes through [apiFetch], [login] and [signup]
    included: on status 401 the stored token is removed, the call fails
    with "Unauthorized" whatever the body says, and in a browser the
    page navigates to the login page; [login] and [signup] store
    nothing. *)
Theorem unauthorized_for_every_call net c w items res :
  localStorage w = Available items ->
  let token := if has_window w then items !! "token" else None in
  net (request_of (API_URL w) token c) = Responds res ->
  status res = 401 ->
  perform net c w =
  (Throw (Error (JString "Unauthorized")),
   World (NEXT_PUBLIC_API_URL w) (has_window w)
         (Available (delete "token" items))
         (navigations w ++ (if has_window w then ["/login"] else []))
         (requests w ++ [request_of (API_URL w) token c])
         (calls w)).
Proof.
  intros Hst token Hnet H401.
  destruct c; simpl in *;
    rewrite ?login_run, ?signup_run;
    unfold sendMessage, forgotPassword, getMe, listConversations,
      createConversation, getConversation, updateConversation, deleteConversation;
    by rewrite (apiFetch_unauthorized _ _ _ _ items res Hst Hnet H401).
Qed.

Lemma unauthorized_for_every_call_witness :
  perform (respond 401 [wire "{'detail':'Invalid email or password'}"])
          (Login "a@bmsit.in" "wrong") (browser {[ "token" := "stale" ]}) =
  (Throw (Error (JString "Unauthorized")),
   World None true (Available (delete "token" {[ "token" := "stale" ]}))
         ([] ++ ["/login"])
         ([] ++ [request_of "http://localhost:8000" (Some "stale")
                            (Login "a@bmsit.in" "wrong")])
         []).
Proof.
  exact (unauthorized_for_every_call
           (respond 401 [wire "{'detail':'Invalid email or password'}"])
           (Login "a@bmsit.in" "wrong") (browser {[ "token" := "stale" ]})
           {[ "token" := "stale" ]}
           (Response 401 (Some (stream_of [wire "{'detail':'Invalid email or password'}"])))
           eq_refl eq_refl eq_refl).
Defined.

(** ** More on the streaming consumer *)

Lemma invoke_frame h c w :
  localStorage (snd (invoke h c w)) = localStorage w /\
  navigations (snd (invoke h c w)) = navigations w.
Proof. unfold invoke. by destruct (h c). Qed.

Lemma consume_frame h res w :
  localStorage (snd (consume h res w)) = localStorage w /\
  navigations (snd (consume h res w)) = navigations w.
Proof.
  destruct (ok res) eqn:Hok.
  - destruct (body res) as [b|] eqn:Hb.
    + by rewrite (consume_stream _ _ b).
    + rewrite consume_no_body by done. apply invoke_frame.
  - rewrite consume_not_ok by done.
    destruct (res_json res) as [v|e]; [|apply invoke_frame].
    destruct (get_prop v "detail"); [apply invoke_frame|done].
Qed.

(** X12: the code of [sendMessageStream] itself never touches the
    session.  Whatever the network answers, a 401 response included
    (which [apiFetch] answers by removing the token and navigating, and
    [sendMessageStream] by an onError call like any other failure), it
    writes nothing to the storage and navigates nowhere: with callbacks
    that only return or throw, as [handlers] are, the storage (and the
    token in it) and the navigation log are after the call what they
    were before it.  What a callback does to the session on its own,
    such as an onError that calls [logout], is the caller's and not
    covered. *)
Theorem stream_keeps_session net message mode year stream hist h w :
  localStorage (snd (sendMessageStream net message mode year stream hist h w)) =
    localStorage w /\
  navigations (snd (sendMessageStream net message mode year stream hist h w)) =
    navigations w.
Proof.
  destruct (fst (getToken w)) as [token|e] eqn:Htok.
  - rewrite (sendMessageStream_fetch _ _ _ _ _ _ _ _ token Htok). simpl.
    destruct (net _) as [res|e]; [|done].
    split; [rewrite (proj1 (consume_frame _ _ _))
           |rewrite (proj2 (consume_frame _ _ _))]; done.
  - by rewrite (sendMessageStream_no_token _ _ _ _ _ _ _ _ e Htok).
Qed.

(** X13: a last line without its newline is never processed.  When the
    text of the stream ends with an event line that no newline follows,
    the callback of that event is not called; the same line followed by
    a newline gets its call. *)
Theorem unterminated_line_dropped
    net message mode year stream hist h w token res b ls tail c :
  fst (getToken w) = Return token ->
  net (stream_request (API_URL w) token message mode year stream hist) = Responds res ->
  ok res = true ->
  body res = Some b ->
  newline_free ls ->
  JsString.no_newline tail = true ->
  event_line tail c ->
  (stream_text b = unlines ls +:+ tail ->
   calls (snd (sendMessageStream net message mode year stream hist h w)) =
     calls w ++ omap line_call ls) /\
  (stream_text b = unlines (ls ++ [tail]) ->
   calls (snd (sendMessageStream net message mode year stream hist h w)) =
     calls w ++ omap line_call ls ++ [c]).
Proof.
  intros Htok Hnet Hok Hb Hls Htail Hev.
  rewrite (stream_calls _ _ _ _ _ _ _ _ _ _ _ Htok Hnet Hok Hb).
  unfold complete_lines. split; intros Htext; rewrite Htext.
  - by rewrite cut_unlines.
  - rewrite <- (append_empty_r (unlines (ls ++ [tail]))).
    rewrite cut_unlines; [|by apply Forall_app; split; [|constructor]|done].
    simpl. rewrite omap_app. csimpl. by rewrite (event_line_call _ _ Hev).
Qed.

Lemma unterminated_line_dropped_witness :
  calls (snd (sendMessageStream
                (respond 200 [wire "data: {'type':'chunk','content':'Hi'}" +:+ nl;
                              wire "data: {'type':'done','sources':[]}"])
                "hello" "study_buddy" one "cse" [] quiet (browser ∅))) =
  [OnChunk (Some (JString "Hi"))].
Proof.
  refine (proj1 (unterminated_line_dropped
            (respond 200 [wire "data: {'type':'chunk','content':'Hi'}" +:+ nl;
                          wire "data: {'type':'done','sources':[]}"])
            "hello" "study_buddy" one "cse" [] quiet (browser ∅) None
            (Response 200 (Some (stream_of _))) (stream_of _)
            [wire "data: {'type':'chunk','content':'Hi'}"]
            (wire "data: {'type':'done','sources':[]}")
            (OnDone (JArray []))
            eq_refl eq_refl eq_refl eq_refl _ eq_refl _) eq_refl).
  - repeat constructor.
  - eapply (done_event _ _ (Some (JArray []))); [split|..]; reflexivity.
Defined.

(** X14: the callbacks do not depend on how the network cuts the body
    into reads: two successful responses whose bodies deliver the same
    text in different pieces, and end the same way, give the same run
    of [sendMessageStream], with the same calls in the same order. *)
Theorem stream_independent_of_reads
    net1 net2 message mode year stream hist h w token res1 res2 b1 b2 :
  fst (getToken w) = Return token ->
  net1 (stream_request (API_URL w) token message mode year stream hist) = Responds res1 ->
  net2 (stream_request (API_URL w) token message mode year stream hist) = Responds res2 ->
  ok res1 = true -> ok res2 = true ->
  body res1 = Some b1 -> body res2 = Some b2 ->
  stream_text b1 = stream_text b2 ->
  stream_end b1 = stream_end b2 ->
  sendMessageStream net1 message mode year stream hist h w =
  sendMessageStream net2 message mode year stream hist h w.
Proof.
  intros Htok Hnet1 Hnet2 Hok1 Hok2 Hb1 Hb2 Htext Hend.
  rewrite (stream_calls _ _ _ _ _ _ _ _ _ _ _ Htok Hnet1 Hok1 Hb1).
  rewrite (stream_calls _ _ _ _ _ _ _ _ _ _ _ Htok Hnet2 Hok2 Hb2).
  by rewrite Htext, Hend.
Qed.

Lemma stream_independent_of_reads_witness :
  sendMessageStream
    (respond 200 [wire "data: {'type':'chunk','content':'Hi'}" +:+ nl
                    +:+ wire "data: {'type':'done'}" +:+ nl])
    "hello" "study_buddy" one "cse" [] quiet (browser ∅) =
  sendMessageStream
    (respond 206 [wire "data: {'ty"; wire "pe':'chunk','content':'Hi'}";
                  nl +:+ wire "data: {'type':'done'}"; nl; EmptyString])
    "hello" "study_buddy" one "cse" [] quiet (browser ∅).
Proof.
  eapply (stream_independent_of_reads _ _ _ _ _ _ _ _ (browser ∅) None);
    reflexivity.
Defined.

Lemma silent_line_call l : silent_line l -> line_call l = None.
Proof.
  unfold line_call.
  intros [Hm | [Hbad | (d & [Hm Hd] & Hty)]].
  - by rewrite Hm.
  - by apply malformed_line_call.
  - rewrite Hm, Hd. destruct d; try done.
    destruct Hty as (-> & -> & ->). done.
Qed.

(** X15: lines that are not events are ignored without any callback
    and without stopping the stream: a line that does not start with
    the marker "data: " (a comment, another field, the marker without
    its space), a line whose remainder is not JSON, and a line whose
    JSON is not an object of type chunk, done or error (null, a number,
    an object of another type).  A stream of such lines makes no call
    and the call returns normally. *)
Theorem silent_lines_ignored
    net message mode year stream hist h w token res reads ls tail :
  fst (getToken w) = Return token ->
  net (stream_request (API_URL w) token message mode year stream hist) = Responds res ->
  ok res = true ->
  body res = Some (stream_of reads) ->
  concat_text reads = unlines ls +:+ tail ->
  newline_free ls ->
  JsString.no_newline tail = true ->
  Forall silent_line ls ->
  fst (sendMessageStream net message mode year stream hist h w) = Return () /\
  calls (snd (sendMessageStream net message mode year stream hist h w)) = calls w.
Proof.
  intros Htok Hnet Hok Hb Htext Hls Htail Hsilent.
  rewrite (stream_calls _ _ _ _ _ _ _ _ _ _ _ Htok Hnet Hok Hb).
  rewrite stream_text_of, stream_end_of, Htext.
  unfold complete_lines. rewrite cut_unlines by done. simpl.
  split; [done|].
  assert (Hnone : omap line_call ls = []).
  { clear -Hsilent. induction Hsilent as [|l ls Hl _ IH]; csimpl; [done|].
    by rewrite (silent_line_call l Hl). }
  by rewrite Hnone, app_nil_r.
Qed.

Lemma silent_lines_ignored_witness :
  fst (sendMessageStream
         (respond 200 [": keep-alive" +:+ nl +:+ wire "data:{'type':'chunk','content':'x'}" +:+ nl;
                       "data: null" +:+ nl +:+ wire "data: {'type':'ping'}" +:+ nl;
                       wire "data: {'type':'chunk'" +:+ nl])
         "hello" "study_buddy" one "cse" [] quiet (browser ∅)) = Return () /\
  calls (snd (sendMessageStream
         (respond 200 [": keep-alive" +:+ nl +:+ wire "data:{'type':'chunk','content':'x'}" +:+ nl;
                       "data: null" +:+ nl +:+ wire "data: {'type':'ping'}" +:+ nl;
                       wire "data: {'type':'chunk'" +:+ nl])
         "hello" "study_buddy" one "cse" [] quiet (browser ∅))) = [].
Proof.
  eapply (silent_lines_ignored _ _ _ _ _ _ _ (browser ∅) None _ _
            [": keep-alive"; wire "data:{'type':'chunk','content':'x'}";
             "data: null"; wire "data: {'type':'ping'}";
             wire "data: {'type':'chunk'"] EmptyString).
  - reflexivity.
  - reflexivity.
  - reflexivity.
  - reflexivity.
  - reflexivity.
  - repeat constructor.
  - reflexivity.
  - constructor; [left; reflexivity|].
    constructor; [left; reflexivity|].
    constructor; [right; right; exists JNull; split; [split; reflexivity|exact I]|].
    constructor; [right; right; exists (JObject [("type", JString "ping")]);
                  split; [split; reflexivity|repeat split]|].
    constructor; [right; left; split; reflexivity|].
    constructor.
Defined.

(** X16: during the stream a callback cannot stop the consumer: what
    onChunk, onDone or onError throw while the body is read is caught
    with the malformed lines, so that for a successful response with a
    body the run is the same whatever the callbacks throw: the same
    calls are made and the call ends the same way. *)
Theorem stream_callbacks_cannot_abort
    net message mode year stream hist h h' w token res b :
  fst (getToken w) = Return token ->
  net (stream_request (API_URL w) token message mode year stream hist) = Responds res ->
  ok res = true ->
  body res = Some b ->
  sendMessageStream net message mode year stream hist h w =
  sendMessageStream net message mode year stream hist h' w.
Proof.
  intros Htok Hnet Hok Hb.
  by rewrite !(stream_calls _ _ _ _ _ _ _ _ _ _ _ Htok Hnet Hok Hb).
Qed.

Lemma stream_callbacks_cannot_abort_witness :
  sendMessageStream
    (respond 200 [wire "data: {'type':'chunk','content':'Hi'}" +:+ nl
                    +:+ wire "data: {'type':'done'}" +:+ nl])
    "hello" "study_buddy" one "cse" []
    (fun c => match c with
              | OnChunk _ => Some (Failure "render failed")
              | _ => None
              end)
    (browser ∅) =
  sendMessageStream
    (respond 200 [wire "data: {'type':'chunk','content':'Hi'}" +:+ nl
                    +:+ wire "data: {'type':'done'}" +:+ nl])
    "hello" "study_buddy" one "cse" [] quiet (browser ∅).
Proof.
  eapply (stream_callbacks_cannot_abort _ _ _ _ _ _ _ _ (browser ∅) None);
    reflexivity.
Defined.

(** ** The pages *)

(** X17: the signup form is checked before anything is sent.  When the
    two passwords differ, or the password has fewer than six UTF-16
    code units, submitting makes no request, stores nothing, navigates
    nowhere and leaves the loading flag alone; the error shown is
    "Passwords do not match" when they differ (also when the password
    is too short as well) and "Password must be at least 6 characters"
    otherwise. *)
Theorem signup_form_checked_first net platform p w :
  SignupPage.password p <> SignupPage.confirmPassword p \/
  (utf16_length (SignupPage.password p) < 6)%nat ->
  snd (SignupPage.handleSubmit net platform p w) = w /\
  SignupPage.pushed (fst (SignupPage.handleSubmit net platform p w)) =
    SignupPage.pushed p /\
  SignupPage.loading (fst (SignupPage.handleSubmit net platform p w)) =
    SignupPage.loading p /\
  SignupPage.error (fst (SignupPage.handleSubmit net platform p w)) =
    (if decide (SignupPage.password p = SignupPage.confirmPassword p)
     then "Password must be at least 6 characters"
     else "Passwords do not match").
Proof.
  intros Hbad. unfold SignupPage.handleSubmit. simpl.
  destruct (decide (SignupPage.password p = SignupPage.confirmPassword p))
    as [Heq|Hne].
  - rewrite (proj2 (String.eqb_eq _ _) Heq). simpl.
    destruct Hbad as [Hne|Hshort]; [done|].
    by rewrite (proj2 (Nat.ltb_lt _ _) Hshort).
  - by rewrite (proj2 (String.eqb_neq _ _) Hne).
Qed.

Lemma signup_form_checked_first_witness :
  snd (SignupPage.handleSubmit (respond 200 [wire "{'token':'t'}"]) (fun _ => "error")
         (SignupPage.Page "Asha" "asha@bmsit.in" "pässw" "pässw" EmptyString false [] false)
         (browser ∅)) = browser ∅ /\
  SignupPage.pushed
    (fst (SignupPage.handleSubmit (respond 200 [wire "{'token':'t'}"]) (fun _ => "error")
            (SignupPage.Page "Asha" "asha@bmsit.in" "pässw" "pässw" EmptyString false [] false)
            (browser ∅))) = [] /\
  SignupPage.loading
    (fst (SignupPage.handleSubmit (respond 200 [wire "{'token':'t'}"]) (fun _ => "error")
            (SignupPage.Page "Asha" "asha@bmsit.in" "pässw" "pässw" EmptyString false [] false)
            (browser ∅))) = false /\
  SignupPage.error
    (fst (SignupPage.handleSubmit (respond 200 [wire "{'token':'t'}"]) (fun _ => "error")
            (SignupPage.Page "Asha" "asha@bmsit.in" "pässw" "pässw" EmptyString false [] false)
            (browser ∅))) = "Password must be at least 6 characters".
Proof.
  refine (signup_form_checked_first (respond 200 [wire "{'token':'t'}"]) (fun _ => "error")
            (SignupPage.Page "Asha" "asha@bmsit.in" "pässw" "pässw" EmptyString false [] false)
            (browser ∅) _).
  right. vm_compute. lia.
Defined.




(** The signup page on a token without string conversion. *)
Example signup_form_token_without_string :
  let run := SignupPage.handleSubmit
               (respond 201 [wire "{'token':{'toString':null}}"])
               (fun _ => "Cannot convert object to primitive value")
               (SignupPage.Page "Asha" "asha@bmsit.in" "secret1" "secret1"
                                EmptyString false [] false)
               (browser {[ "token" := "stale" ]}) in
  SignupPage.pushed (fst run) = [] /\
  SignupPage.error (fst run) = "Cannot convert object to primitive value" /\
  localStorage (snd run) = Available {[ "token" := "stale" ]}.
Proof. vm_compute. done. Qed.



(** The signup page on a detail that is a number beyond the doubles,
    and on a detail without string conversion. *)
Example signup_form_failure_details :
  SignupPage.error
    (fst (SignupPage.handleSubmit (respond 400 [wire "{'detail':1e400}"])
            (fun _ => "Cannot convert object to primitive value")
            (SignupPage.Page "Asha" "asha" "secret1" "secret1" EmptyString false [] false)
            (browser ∅))) = "Infinity" /\
  SignupPage.error
    (fst (SignupPage.handleSubmit (respond 400 [wire "{'detail':{'toString':1}}"])
            (fun _ => "Cannot convert object to primitive value")
            (SignupPage.Page "Asha" "asha" "secret1" "secret1" EmptyString false [] false)
            (browser ∅))) = "Cannot convert object to primitive value".
Proof. vm_compute. done. Qed.



(** The login page on a token without string conversion, and on a long
    numeric token. *)
Example login_page_tokens :
  (let run := LoginPage.handleSubmit
                (respond 200 [wire "{'token':{'toString':null}}"])
                (fun _ => "Cannot convert object to primitive value")
                (LoginPage.Page "asha@bmsit.in" "secret" EmptyString false [] false)
                (browser {[ "token" := "stale" ]}) in
   LoginPage.pushed (fst run) = [] /\
   LoginPage.error (fst run) = "Cannot convert object to primitive value" /\
   localStorage (snd run) = Available {[ "token" := "stale" ]}) /\
  (let run := LoginPage.handleSubmit
                (respond 200 [wire "{'token':12345678901234567890}"])
                (fun _ => "error")
                (LoginPage.Page "asha@bmsit.in" "secret" EmptyString false [] false)
                (browser {[ "token" := "stale" ]}) in
   LoginPage.pushed (fst run) = ["/chat"] /\
   localStorage (snd run) = Available {[ "token" := "12345678901234567000" ]}).
Proof. vm_compute. done. Qed.

(** X21: the home page sends the visitor to exactly one place: in a
    browser its effect pushes "/chat" when a non-empty token is stored
    and "/login" when no token or the empty string is stored, and it
    changes nothing else. *)
Theorem home_redirects_by_token pushed w items :
  has_window w = true ->
  localStorage w = Available items ->
  Home.effect pushed w =
  (Return (pushed ++ [match items !! "token" with
                      | Some (String _ _) => "/chat"
                      | Some EmptyString | None => "/login"
                      end]), w).
Proof.
  intros Hwin Hst. unfold Home.effect.
  rewrite bind_run, isLoggedIn_run, (getToken_browser w items) by done.
  by destruct (items !! "token") as [[|c t]|].
Qed.

Lemma home_redirects_by_token_witness :
  Home.effect [] (browser {[ "token" := EmptyString ]}) =
  (Return ([] ++ ["/login"]), browser {[ "token" := EmptyString ]}).
Proof.
  exact (home_redirects_by_token [] (browser {[ "token" := EmptyString ]})
           {[ "token" := EmptyString ]} eq_refl eq_refl).
Defined.



